(** * Polybot: the copy-trade synchronisation engine

    A shallow embedding of [models.py], [db.py], [position_manager.py],
    [tracker.py], [config.py], [executor.py] and the poll loop of
    [main.py], followed by the properties of the engine.

    Conventions of the embedding.
    - A Python [float] is an IEEE 754 binary64 number: Rocq's primitive
      [float], with the same division and comparisons.
    - A [datetime] object of Python is naive or offset-aware, and Python
      orders two of them only when they are of the same kind
      (TypeError otherwise): a [moment] is the kind together with the
      microseconds on the time line of that kind.  The readings of
      [datetime.utcnow()], which is all the ledger stores, are naive:
      they are kept as their microseconds, [datetime].
    - [datetime.utcnow()] reads the environment: every function that calls
      it receives the reading as an argument, one argument per call.
    - The SQLite tables are the two components of [Ledger]: the rows of
      [positions] in rowid order together with the AUTOINCREMENT counter,
      and [processed_trades] as a finite map on its primary key.  A
      statement is committed before the function returns, so a write is
      a function from ledgers to ledgers; the one statement that can
      fail on the values this program writes is the INSERT of a
      position, whose two REAL NOT NULL columns refuse a NaN. *)

From Stdlib Require Import ZArith Floats Lia Ascii String.
From stdpp Require Import base option list sorting strings gmap.

Local Open Scope string_scope.
Local Open Scope list_scope.

Definition datetime := Z.
Bind Scope Z_scope with datetime.

Record moment := mkMoment {
  aware : bool;
  ticks : Z
}.

(** A reading of [datetime.utcnow()], and of [fromisoformat] on a text
    without offset. *)
Definition naive (t : datetime) : moment :=
  {| aware := false; ticks := t |}.

(** A moment given with an offset, such as a text ending in Z. *)
Definition with_offset (t : Z) : moment :=
  {| aware := true; ticks := t |}.

(** ** models.py *)

Module Models.

Inductive TradeSide := BUY | SELL.

Definition TradeSide_eqb (a b : TradeSide) : bool :=
  match a, b with
  | BUY, BUY | SELL, SELL => true
  | _, _ => false
  end.

(** [TradeSide.value] *)
Definition value (s : TradeSide) : string :=
  match s with BUY => "BUY" | SELL => "SELL" end.

(** The dataclass [Trade].  Python does not enforce the [str] annotations
    of [market_id], [token_id] and [outcome]: the parser stores in them
    whatever the feed record holds.  [text] is the type of these three
    fields; the ledger and the loop work on [Trade], where they are
    strings as annotated. *)
Record TradeOf (text : Type) := mkTrade {
  trade_id : string;
  market_id : text;
  token_id : text;
  side : TradeSide;
  size : float;
  price : float;
  timestamp : moment;
  outcome : text
}.

Arguments mkTrade {text}.
Arguments trade_id {text}.
Arguments market_id {text}.
Arguments token_id {text}.
Arguments side {text}.
Arguments size {text}.
Arguments price {text}.
Arguments timestamp {text}.
Arguments outcome {text}.

Abbreviation Trade := (TradeOf string).

Definition is_buy {text} (t : TradeOf text) : bool :=
  TradeSide_eqb (side t) BUY.
Definition is_sell {text} (t : TradeOf text) : bool :=
  TradeSide_eqb (side t) SELL.

Record Position := mkPosition {
  id : option Z;
  p_market_id : string;
  p_token_id : string;
  p_side : TradeSide;
  amount : float;
  entry_price : float;
  opened_at : datetime;
  closed_at : option datetime;
  p_outcome : string
}.

Definition is_open (p : Position) : bool :=
  match closed_at p with None => true | Some _ => false end.

Record ProcessedTrade := mkProcessedTrade {
  pt_trade_id : string;
  processed_at : datetime
}.

End Models.

Import Models.

(** ** db.py *)

Module Db.

(** The database behind a connection.  [seq] is the largest id that
    AUTOINCREMENT has handed out ([sqlite_sequence]). *)
Record Ledger := mkLedger {
  positions : list Position;
  seq : Z;
  processed_trades : gmap string datetime
}.

(** [init_db] on a fresh file. *)
Definition init_db : Ledger :=
  {| positions := []; seq := 0; processed_trades := ∅ |}.

(** The columns [amount] and [entry_price] are REAL NOT NULL, and the
    [sqlite3] module binds a NaN as NULL. *)
Definition storable (position : Position) : bool :=
  negb (is_nan (amount position)) && negb (is_nan (entry_price position)).

(** INSERT INTO positions: the row gets the next id, the other columns
    come from the object ([closed_at] included).  [None] is the
    IntegrityError of a NOT NULL column given a NaN; nothing is written
    then. *)
Definition save_position (position : Position) (L : Ledger)
  : option (Z * Ledger) :=
  if storable position then
    let rowid := (seq L + 1)%Z in
    Some
      (rowid,
       {| positions := positions L ++
            [ {| id := Some rowid;
                 p_market_id := p_market_id position;
                 p_token_id := p_token_id position;
                 p_side := p_side position;
                 amount := amount position;
                 entry_price := entry_price position;
                 opened_at := opened_at position;
                 closed_at := closed_at position;
                 p_outcome := p_outcome position |} ];
          seq := rowid;
          processed_trades := processed_trades L |})
  else None.

(** WHERE closed_at IS NULL *)
Definition get_open_positions (L : Ledger) : list Position :=
  List.filter is_open (positions L).

(** WHERE token_id = ? AND closed_at IS NULL *)
Definition open_on (token : string) (p : Position) : bool :=
  bool_decide (p_token_id p = token) && is_open p.

(** [fetchone] of that query: the first matching row, if any. *)
Definition get_position_by_token (L : Ledger) (token : string)
  : option Position :=
  find (open_on token) (positions L).

(** UPDATE positions SET closed_at = ? WHERE id = ? *)
Definition close_row (now : datetime) (position_id : option Z)
    (p : Position) : Position :=
  if bool_decide (id p = position_id) then
    {| id := id p;
       p_market_id := p_market_id p;
       p_token_id := p_token_id p;
       p_side := p_side p;
       amount := amount p;
       entry_price := entry_price p;
       opened_at := opened_at p;
       closed_at := Some now;
       p_outcome := p_outcome p |}
  else p.

Definition close_position (now : datetime) (position_id : option Z)
    (L : Ledger) : Ledger :=
  {| positions := map (close_row now position_id) (positions L);
     seq := seq L;
     processed_trades := processed_trades L |}.

(** SELECT 1 FROM processed_trades WHERE trade_id = ? *)
Definition is_trade_processed (L : Ledger) (tid : string) : bool :=
  bool_decide (is_Some (processed_trades L !! tid)).

(** INSERT OR IGNORE: a row with this key stays as it is. *)
Definition mark_trade_processed (now : datetime) (tid : string)
    (L : Ledger) : Ledger :=
  {| positions := positions L;
     seq := seq L;
     processed_trades :=
       match processed_trades L !! tid with
       | Some _ => processed_trades L
       | None => <[tid := now]> (processed_trades L)
       end |}.

End Db.

(** ** position_manager.py *)

Module PositionManager.

Import Db.

(** [amount / entry_price if entry_price > 0 else 0] *)
Definition entry_size (amount entry_price : float) : float :=
  if (0 <? entry_price)%float then (amount / entry_price)%float
  else 0%float.

(** [now_open] is the clock reading stored in [opened_at], [now_mark]
    the later one stored with the processed marker.  [None]: the INSERT
    raised, and the marker is not reached. *)
Definition record_entry (trade : Trade) (amount entry_price : float)
    (now_open now_mark : datetime) (L : Ledger) : option (Z * Ledger) :=
  let size := entry_size amount entry_price in
  let position :=
    {| id := None;
       p_market_id := market_id trade;
       p_token_id := token_id trade;
       p_side := side trade;
       amount := size;
       entry_price := entry_price;
       opened_at := now_open;
       closed_at := None;
       p_outcome := outcome trade |} in
  match save_position position L with
  | Some (position_id, L1) =>
      Some (position_id, mark_trade_processed now_mark (trade_id trade) L1)
  | None => None
  end.

Definition record_exit (trade : Trade) (now_close now_mark : datetime)
    (L : Ledger) : bool * Ledger :=
  match get_position_by_token L (token_id trade) with
  | None => (false, L)
  | Some position =>
      let L1 := close_position now_close (id position) L in
      (true, mark_trade_processed now_mark (trade_id trade) L1)
  end.

Definition has_position (L : Ledger) (token : string) : bool :=
  match get_position_by_token L token with
  | Some _ => true
  | None => false
  end.

Definition get_position (L : Ledger) (token : string) : option Position :=
  get_position_by_token L token.

Definition get_all_open_positions (L : Ledger) : list Position :=
  get_open_positions L.

Definition is_trade_processed (L : Ledger) (tid : string) : bool :=
  Db.is_trade_processed L tid.

Definition mark_processed (now : datetime) (tid : string) (L : Ledger)
  : Ledger :=
  mark_trade_processed now tid L.

End PositionManager.

(** ** config.py *)

Module Config.

Record Config := mkConfig {
  private_key : string;
  target_address : string;
  trade_amount : float;
  poll_interval : Z;
  db_path : string;
  chain_id : Z;
  clob_url : string;
  data_api_url : string
}.

End Config.

(** ** main.py: the body of the loop over the new trades *)

Module Main.

Import Db Config.

(** The two requests the loop sends to the Execution Adapter. *)
Inductive ExecutorCall :=
| buy (token : string) (usd_amount : float)
| sell (token : string) (shares : float).

(** What surrounds the processing of one trade: [order_id] is what the
    Execution Adapter returns if it is called ([None] on failure), [now1]
    and [now2] are the first and the second clock reading of the ledger
    writes. *)
Record Env := mkEnv {
  order_id : option string;
  now1 : datetime;
  now2 : datetime
}.

(** [if order_id:] on an [Optional[str]]: [None] and the empty string are
    false. *)
Definition truthy (o : option string) : bool :=
  match o with
  | Some s => negb (String.eqb s "")
  | None => false
  end.

(** How an iteration ends: with the ledger it leaves, or by the
    IntegrityError of [record_entry], the ledger being as it was. *)
Inductive Outcome :=
| Completed (L : Ledger)
| Raised.

(** One iteration of [for trade in new_trades]: the calls sent to the
    Execution Adapter and how the iteration ends. *)
Definition iteration (config : Config) (env : Env) (trade : Trade)
    (L : Ledger) : list ExecutorCall * Outcome :=
  if PositionManager.is_trade_processed L (trade_id trade)
  then ([], Completed L)
  else if is_buy trade then
    let call := buy (token_id trade) (trade_amount config) in
    if truthy (order_id env) then
      ([call],
       match PositionManager.record_entry trade (trade_amount config)
               (price trade) (now1 env) (now2 env) L with
       | Some r => Completed r.2
       | None => Raised
       end)
    else
      ([call],
       Completed
         (PositionManager.mark_processed (now1 env) (trade_id trade) L))
  else if is_sell trade then
    match PositionManager.get_position L (token_id trade) with
    | Some position =>
        let call := sell (token_id trade) (amount position) in
        if truthy (order_id env) then
          ([call],
           Completed
             (PositionManager.record_exit trade (now1 env) (now2 env) L).2)
        else
          ([call],
           Completed
             (PositionManager.mark_processed (now1 env) (trade_id trade) L))
    | None =>
        ([],
         Completed
           (PositionManager.mark_processed (now1 env) (trade_id trade) L))
    end
  else ([], Completed L).

(** The calls of an iteration and the ledger after it. *)
Definition process_trade (config : Config) (env : Env) (trade : Trade)
    (L : Ledger) : list ExecutorCall * Ledger :=
  let r := iteration config env trade L in
  (r.1, match r.2 with Completed L' => L' | Raised => L end).

Arguments process_trade : simpl never.

(** The iteration ends by an exception. *)
Definition raises (config : Config) (env : Env) (trade : Trade)
    (L : Ledger) : bool :=
  match (iteration config env trade L).2 with
  | Completed _ => false
  | Raised => true
  end.

Arguments raises : simpl never.

(** Iterations of the loop one after the other, over one poll cycle or
    several: the log pairs every call with the trade_id it was made
    for.  An iteration that raises ends its cycle (the handler of the
    poll loop logs and sleeps), so the iteration that follows it in the
    sequence belongs to a later cycle. *)
Fixpoint run (config : Config) (steps : list (Trade * Env)) (L : Ledger)
  : list (string * ExecutorCall) * Ledger :=
  match steps with
  | [] => ([], L)
  | (trade, env) :: rest =>
      let r := process_trade config env trade L in
      let r' := run config rest r.2 in
      (map (pair (trade_id trade)) r.1 ++ r'.1, r'.2)
  end.

(** How many open positions the ledger holds on a token. *)
Definition open_count (token : string) (L : Ledger) : nat :=
  length (List.filter (open_on token) (positions L)).

(** The iteration on [trade] calls [record_entry]: the trade is new, a
    BUY, and the Execution Adapter returns an order id. *)
Definition enters (env : Env) (trade : Trade) (L : Ledger) : bool :=
  negb (PositionManager.is_trade_processed L (trade_id trade))
  && is_buy trade && truthy (order_id env).

(** No BUY is copied on a token while the ledger holds an open position
    on it. *)
Fixpoint no_reentry (config : Config) (steps : list (Trade * Env))
    (L : Ledger) : bool :=
  match steps with
  | [] => true
  | (trade, env) :: rest =>
      (if enters env trade L
       then negb (PositionManager.has_position L (token_id trade))
       else true)
      && no_reentry config rest (process_trade config env trade L).2
  end.



End Main.

(** ** tracker.py *)

Module Tracker.

(** *** Exceptions *)

Inductive PyExc :=
| KeyError | ValueError | TypeError | AttributeError | OverflowError.

(** An evaluation that returns a value or raises. *)
Inductive res (A : Type) :=
| Ret (a : A)
| Raise (e : PyExc).

Arguments Ret {A}.
Arguments Raise {A}.

#[global] Instance res_bind : MBind res := fun A B k r =>
  match r with
  | Ret a => k a
  | Raise e => Raise e
  end.

(** *** Comparing moments *)

Definition same_kind (a b : moment) : bool := Bool.eqb (aware a) (aware b).

(** [a > b]: "can't compare offset-naive and offset-aware datetimes"
    when the two are of different kinds. *)
Definition gt (a b : moment) : res bool :=
  if same_kind a b then Ret (ticks a >? ticks b)%Z else Raise TypeError.

(** *** The watermark and the selection of new trades *)

Record Tracker := mkTracker {
  data_api_url : string;
  target_address : string;
  last_seen_timestamp : option moment
}.

Definition with_last_seen (self : Tracker) (w : option moment) : Tracker :=
  {| data_api_url := data_api_url self;
     target_address := target_address self;
     last_seen_timestamp := w |}.

(** [max] keeps the first item and replaces it by every later item that
    is greater. *)
Fixpoint max_from (m : moment) (rest : list Trade) : res moment :=
  match rest with
  | [] => Ret m
  | u :: rest' =>
      match gt (timestamp u) m with
      | Ret b => max_from (if b then timestamp u else m) rest'
      | Raise e => Raise e
      end
  end.

(** [max(t.timestamp for t in trades)]: ValueError on an empty sequence,
    TypeError on timestamps of both kinds. *)
Definition max_timestamp (trades : list Trade) : res moment :=
  match trades with
  | [] => Raise ValueError
  | t :: rest => max_from (timestamp t) rest
  end.

(** The timestamps of [trades] are all of the kind of [m]. *)
Definition all_of_kind (m : moment) (trades : list Trade) : bool :=
  forallb (fun t => same_kind (timestamp t) m) trades.

(** The timestamps of [trades] are of one kind. *)
Definition uniform (trades : list Trade) : bool :=
  match trades with
  | [] => true
  | t :: rest => all_of_kind (timestamp t) rest
  end.

(** [m] is the greatest timestamp among [trades], all of its kind. *)
Definition greatest_timestamp (m : moment) (trades : list Trade) : Prop :=
  (exists t, t ∈ trades /\ timestamp t = m)
  /\ forall t, t ∈ trades ->
       aware (timestamp t) = aware m
       /\ (ticks (timestamp t) <= ticks m)%Z.

(** [[t for t in trades if t.timestamp > last_seen]] *)
Fixpoint newer_trades (last_seen : moment) (trades : list Trade)
  : res (list Trade) :=
  match trades with
  | [] => Ret []
  | t :: rest =>
      match gt (timestamp t) last_seen with
      | Ret b =>
          match newer_trades last_seen rest with
          | Ret new => Ret (if b then t :: new else new)
          | Raise e => Raise e
          end
      | Raise e => Raise e
      end
  end.

(** On timestamps of one kind [list.sort(key=lambda t: t.timestamp)] is
    a stable sort: trades of equal timestamp keep the order they had.
    Insertion from the right, each trade going before the first one
    that is not older. *)
Fixpoint insert_by_timestamp (t : Trade) (sorted : list Trade) : list Trade :=
  match sorted with
  | [] => [t]
  | u :: rest =>
      if (ticks (timestamp t) <=? ticks (timestamp u))%Z then t :: u :: rest
      else u :: insert_by_timestamp t rest
  end.

Fixpoint stable_sort (trades : list Trade) : list Trade :=
  match trades with
  | [] => []
  | t :: rest => insert_by_timestamp t (stable_sort rest)
  end.

(** The sort compares the keys with [<], which raises on two timestamps
    of different kinds. *)
Definition sort_by_timestamp (trades : list Trade) : res (list Trade) :=
  if uniform trades then Ret (stable_sort trades) else Raise TypeError.

Definition older_ticks (t u : Trade) : Prop :=
  (ticks (timestamp t) <= ticks (timestamp u))%Z.

Definition older_or_same (t u : Trade) : Prop :=
  aware (timestamp t) = aware (timestamp u)
  /\ (ticks (timestamp t) <= ticks (timestamp u))%Z.


(** [t] is stamped after [last_seen], on the time line of its kind. *)
Definition newer_than (last_seen : moment) (t : Trade) : bool :=
  (ticks (timestamp t) >? ticks last_seen)%Z.

Definition _filter_new_trades (self : Tracker) (trades : list Trade)
  : res (list Trade * Tracker) :=
  match last_seen_timestamp self with
  | None =>
      match trades with
      | [] => Ret ([], self)
      | _ :: _ =>
          m ← max_timestamp trades;
          Ret ([], with_last_seen self (Some m))
      end
  | Some last_seen =>
      new_trades ← newer_trades last_seen trades;
      sorted ← sort_by_timestamp new_trades;
      Ret (sorted, self)
  end.

(** [fetched] is the outcome of [self._fetch_activity()]: the parsed
    trades, or [None] when the call raised (transport or decoding error,
    or an exception that left the parser).  Whatever is raised inside
    the [try], the TypeError of a comparison included, the handler
    returns the empty list, and the tracker is as the exception found
    it. *)
Definition get_new_trades (self : Tracker) (fetched : option (list Trade))
  : list Trade * Tracker :=
  match fetched with
  | None => ([], self)
  | Some trades =>
      match _filter_new_trades self trades with
      | Raise _ => ([], self)
      | Ret (new_trades, self1) =>
          match new_trades with
          | [] => ([], self1)
          | _ :: _ =>
              match max_timestamp new_trades with
              | Ret m => (new_trades, with_last_seen self1 (Some m))
              | Raise _ => ([], self1)
              end
          end
      end
  end.

Definition set_last_seen (self : Tracker) (ts : moment) : Tracker :=
  with_last_seen self (Some ts).

(** *** Sequences of calls on one tracker *)

Inductive Call :=
| GetNewTrades (fetched : option (list Trade))
| SetLastSeen (ts : moment).

Definition call (c : Call) (self : Tracker) : list Trade * Tracker :=
  match c with
  | GetNewTrades fetched => get_new_trades self fetched
  | SetLastSeen ts => ([], set_last_seen self ts)
  end.

(** All the trades emitted along the calls, and the tracker at the end. *)
Fixpoint calls (cs : list Call) (self : Tracker) : list Trade * Tracker :=
  match cs with
  | [] => ([], self)
  | c :: rest =>
      let r := call c self in
      let r' := calls rest r.2 in
      (r.1 ++ r'.1, r'.2)
  end.

(** The order of watermarks: unset is below every timestamp, and two
    timestamps are ordered when they are of one kind. *)
Definition wm_le (a b : option moment) : Prop :=
  match a, b with
  | None, _ => True
  | Some _, None => False
  | Some x, Some y => aware x = aware y /\ (ticks x <= ticks y)%Z
  end.

Definition wm_leb (a b : option moment) : bool :=
  match a, b with
  | None, _ => true
  | Some _, None => false
  | Some x, Some y => same_kind x y && (ticks x <=? ticks y)%Z
  end.

(** Every [set_last_seen] of the sequence is given a timestamp that is not
    below the watermark it replaces. *)
Fixpoint seeds_forward (cs : list Call) (self : Tracker) : bool :=
  match cs with
  | [] => true
  | c :: rest =>
      match c with
      | SetLastSeen ts => wm_leb (last_seen_timestamp self) (Some ts)
      | GetNewTrades _ => true
      end
      && seeds_forward rest (call c self).2
  end.

(** *** The record parser *)

(** A decoded JSON value, as [response.json()] returns it. *)
#[local] Unset Elimination Schemes.
Inductive json :=
| JNull
| JBool (b : bool)
| JInt (z : Z)
| JFloat (f : float)
| JStr (s : string)
| JArr (l : list json)
| JObj (m : list (string * json)).
#[local] Set Elimination Schemes.

(** Python's truth value of a decoded JSON value. *)
Definition json_truthy (v : json) : bool :=
  match v with
  | JNull => false
  | JBool b => b
  | JInt z => negb (z =? 0)%Z
  | JFloat f => negb (f =? 0)%float
  | JStr s => negb (String.eqb s "")
  | JArr l => match l with [] => false | _ => true end
  | JObj m => match m with [] => false | _ => true end
  end.

(** [except (KeyError, ValueError, TypeError)] *)
Definition caught (e : PyExc) : bool :=
  match e with
  | KeyError | ValueError | TypeError => true
  | AttributeError | OverflowError => false
  end.

(** [s.replace("Z", "+00:00")] *)
Fixpoint replace_Z (s : string) : string :=
  match s with
  | EmptyString => EmptyString
  | String c rest =>
      if Ascii.eqb c "Z"%char then String.append "+00:00" (replace_Z rest)
      else String c (replace_Z rest)
  end.

(** [v.replace(...)] and [v.upper()] exist on strings only. *)
Definition str_method (f : string -> string) (v : json) : res string :=
  match v with
  | JStr s => Ret (f s)
  | _ => Raise AttributeError
  end.

(** [item.get(key)] and [item.get(key, default)] *)
Definition get (item : gmap string json) (key : string) : json :=
  default JNull (item !! key).

Definition get_or (item : gmap string json) (key : string) (d : json)
  : json :=
  default d (item !! key).

(** [a or b] *)
Definition py_or (a b : json) : json := if json_truthy a then a else b.


Section Parser.

(** Python's built-ins, as they are: [str.upper], [datetime.fromisoformat]
    (ValueError on a malformed string; the moment is offset-aware when
    the string carries an offset, naive when it does not), [float(...)] (ValueError, TypeError
    or OverflowError on what is not a number) and [str(...)]. *)
Variable upper : string -> string.
Variable fromisoformat : string -> res moment.
Variable py_float : json -> res float.
Variable py_str : json -> string.

(** The body of the [try]; [now] is the reading of [datetime.utcnow()]. *)
Definition parse_body (item : gmap string json) (now : datetime)
  : res (TradeOf json) :=
  let timestamp_str := py_or (get item "timestamp") (get item "createdAt") in
  ts ← (if json_truthy timestamp_str then
          s ← str_method replace_Z timestamp_str;
          fromisoformat s
        else Ret (naive now));
  side_str ← str_method upper (get_or item "side" (JStr ""));
  let sd := if String.eqb side_str "BUY" then BUY else SELL in
  let tid := py_str (get_or item "id"
                       (get_or item "transactionHash" (JStr ""))) in
  let market := get_or item "conditionId"
                  (get_or item "marketId" (JStr "")) in
  let token := get_or item "assetId" (get_or item "tokenId" (JStr "")) in
  sz ← py_float (get_or item "size" (JInt 0));
  pr ← py_float (get_or item "price" (JInt 0));
  Ret {| trade_id := tid;
         market_id := market;
         token_id := token;
         side := sd;
         size := sz;
         price := pr;
         timestamp := ts;
         outcome := get_or item "outcome"
                      (get_or item "title" (JStr "YES")) |}.

(** [Ret (Some t)]: the trade; [Ret None]: the record is dropped (an
    exception of the three caught classes); [Raise e]: the exception
    leaves the parser. *)
Definition _parse_trade (item : gmap string json) (now : datetime)
  : res (option (TradeOf json)) :=
  match parse_body item now with
  | Ret t => Ret (Some t)
  | Raise e => if caught e then Ret None else Raise e
  end.

End Parser.


(** What is compared with ["BUY"] for a record: the side, upper-cased,
    the empty string standing in for a missing key; nothing when the
    value is not a string. *)
Definition side_str (upper : string -> string) (item : gmap string json)
  : option string :=
  match get_or item "side" (JStr "") with
  | JStr s => Some (upper s)
  | _ => None
  end.

End Tracker.

(** ** Sample data *)

Module Samples.

Import Db Config Main Tracker.

Local Open Scope Z_scope.

Definition config : Config :=
  {| private_key := "0xkey";
     Config.target_address := "0xtarget";
     trade_amount := 10;
     poll_interval := 10;
     db_path := "polybot.db";
     chain_id := 137;
     clob_url := "https://clob.polymarket.com";
     Config.data_api_url := "https://data-api.polymarket.com" |}.

(** A trade of the target on token T1 at price 0.5, dated with an
    offset. *)
Definition trade (tid : string) (sd : TradeSide) (ts : Z) : Trade :=
  {| trade_id := tid;
     market_id := "M1";
     token_id := "T1";
     side := sd;
     size := 5;
     price := 0.5;
     timestamp := with_offset ts;
     outcome := "YES" |}.

(** The same trade, dated without offset. *)
Definition undated (tid : string) (sd : TradeSide) (ts : Z) : Trade :=
  {| trade_id := tid;
     market_id := "M1";
     token_id := "T1";
     side := sd;
     size := 5;
     price := 0.5;
     timestamp := naive ts;
     outcome := "YES" |}.


(** The Execution Adapter places the order. *)
Definition placed (now : datetime) : Env :=
  {| order_id := Some "order-1"; now1 := now; now2 := (now + 1)%Z |}.

(** The Execution Adapter fails. *)
Definition failed (now : datetime) : Env :=
  {| order_id := None; now1 := now; now2 := (now + 1)%Z |}.

(** The target buys T1 twice, the two purchases being two trades. *)
Definition two_buys : list (Trade * Env) :=
  [ (trade "a" BUY 1, placed 100); (trade "b" BUY 2, placed 200) ].

(** The target buys T1, sells it, and buys it again. *)
Definition buy_sell_buy : list (Trade * Env) :=
  [ (trade "a" BUY 1, placed 100);
    (trade "b" SELL 2, placed 200);
    (trade "c" BUY 3, placed 300) ].

(** The ledger after one copied BUY of T1. *)
Definition holding : Ledger := (run config [(trade "a" BUY 1, placed 100)] init_db).2.

Definition tracker (w : option moment) : Tracker.Tracker :=
  {| Tracker.data_api_url := "https://data-api.polymarket.com";
     Tracker.target_address := "0xtarget";
     last_seen_timestamp := w |}.

(** ASCII upper-casing, a stand-in for [str.upper] on ASCII text. *)
Definition upper_char (c : ascii) : ascii :=
  let n := nat_of_ascii c in
  if ((97 <=? n) && (n <=? 122))%nat then ascii_of_nat (n - 32)%nat else c.

Fixpoint upper (s : string) : string :=
  match s with
  | EmptyString => EmptyString
  | String c rest => String (upper_char c) (upper rest)
  end.

(** Stand-ins for the other built-ins of the parser, on the values the
    sample records hold: an ISO string is not decoded (any such string is
    taken for malformed), and [float] is taken on numbers that are floats
    already. *)
Definition fromisoformat (s : string) : res moment := Raise ValueError.

Definition py_float (v : json) : res float :=
  match v with
  | JFloat f => Ret f
  | JInt 0 => Ret 0%float
  | _ => Raise TypeError
  end.

Definition py_str (v : json) : string :=
  match v with
  | JStr s => s
  | _ => ""
  end.

(** A feed record whose side is neither BUY nor SELL. *)
Definition odd_side_item : gmap string json :=
  <["side" := JStr "hold"]>
    (<["id" := JStr "tx1"]>
       (<["assetId" := JStr "T1"]>
          (<["price" := JFloat 0.5]> ∅))).


End Samples.

(** ** db.py and main.py: the rest of the ledger and the start-up *)

Module Resume.

Import Db Main.

(** The later of two markers, the first one on a tie. *)
Definition later_marker (best : option ProcessedTrade)
    (row : string * datetime) : option ProcessedTrade :=
  match best with
  | None => Some {| pt_trade_id := row.1; processed_at := row.2 |}
  | Some b =>
      if (processed_at b <? row.2)%Z
      then Some {| pt_trade_id := row.1; processed_at := row.2 |}
      else Some b
  end.

(** SELECT * FROM processed_trades ORDER BY processed_at DESC LIMIT 1.
    [processed_at] holds the ISO text of a [utcnow()] reading, and the
    texts of such readings are ordered as the readings are.  Among rows
    of equal [processed_at] SQL leaves the choice open; the model takes
    the first of them in the enumeration of the table. *)
Definition get_last_processed_trade (L : Ledger) : option ProcessedTrade :=
  fold_left later_marker (map_to_list (processed_trades L)) None.

(** [main], lines 72 to 76: the watermark is seeded from the latest
    marker, if there is one; [processed_at] is read back from its ISO
    text, which has no offset, as a naive moment. *)
Definition resume (L : Ledger) (tracker : Tracker.Tracker)
  : Tracker.Tracker :=
  match get_last_processed_trade L with
  | Some last_processed =>
      Tracker.set_last_seen tracker (naive (processed_at last_processed))
  | None => tracker
  end.

(** [for trade in new_trades], inside the [try] of the poll loop: an
    iteration that raises ends the loop, the trades after it are not
    processed. *)
Fixpoint for_trades (config : Config.Config) (steps : list (Trade * Env))
    (L : Ledger) : list (string * ExecutorCall) * Ledger :=
  match steps with
  | [] => ([], L)
  | (trade, env) :: rest =>
      let r := iteration config env trade L in
      match r.2 with
      | Raised => (map (pair (trade_id trade)) r.1, L)
      | Completed L' =>
          let r' := for_trades config rest L' in
          (map (pair (trade_id trade)) r.1 ++ r'.1, r'.2)
      end
  end.

(** One turn of [while running]: the poll, then the loop over the new
    trades.  [oracle i] is what surrounds the processing of the i-th new
    trade. *)
Definition cycle (config : Config.Config) (fetched : option (list Trade))
    (oracle : nat -> Env) (st : Tracker.Tracker * Ledger)
  : list (string * ExecutorCall) * (Tracker.Tracker * Ledger) :=
  let polled := Tracker.get_new_trades st.1 fetched in
  let r := for_trades config
             (imap (fun i t => (t, oracle i)) polled.1) st.2 in
  (r.1, (polled.2, r.2)).

(** The rows of [positions] carry the ids 1, 2, 3, ... in order, and the
    AUTOINCREMENT counter stands at the last of them. *)
Definition numbered (L : Ledger) : Prop :=
  seq L = Z.of_nat (length (positions L))
  /\ forall i p, positions L !! i = Some p -> id p = Some (Z.of_nat i + 1)%Z.

(** [p'] is the row [p], possibly closed in between. *)
Definition same_row (p p' : Position) : Prop :=
  id p' = id p
  /\ p_market_id p' = p_market_id p
  /\ p_token_id p' = p_token_id p
  /\ p_side p' = p_side p
  /\ amount p' = amount p
  /\ entry_price p' = entry_price p
  /\ opened_at p' = opened_at p
  /\ p_outcome p' = p_outcome p.

Definition is_buy_call (c : string * ExecutorCall) : bool :=
  match c.2 with
  | buy _ _ => true
  | sell _ _ => false
  end.

End Resume.

(** ** tracker.py: the loop of [_fetch_activity] *)

Module Feed.

Import Tracker.

(** [item.get("type") != "TRADE"] is false for the string ["TRADE"] and
    nothing else. *)
Definition is_trade_record (item : gmap string json) : bool :=
  match get item "type" with
  | JStr s => String.eqb s "TRADE"
  | _ => false
  end.

Section Fetch.

Variable upper : string -> string.
Variable fromisoformat : string -> res moment.
Variable py_float : json -> res float.
Variable py_str : json -> string.

(** [for item in data]: [data] is the decoded array of records, each
    with the reading [datetime.utcnow()] gives while it is parsed;
    [trades] is the list built so far.  An exception that leaves the
    parser leaves the loop. *)
Fixpoint fetch_loop (data : list (gmap string json * datetime))
    (trades : list (TradeOf json)) : res (list (TradeOf json)) :=
  match data with
  | [] => Ret trades
  | (item, now) :: rest =>
      if negb (is_trade_record item) then fetch_loop rest trades
      else
        trade ← _parse_trade upper fromisoformat py_float py_str item now;
        match trade with
        | Some t => fetch_loop rest (trades ++ [t])
        | None => fetch_loop rest trades
        end
  end.

(** [_fetch_activity] from [data = response.json()] on; a failure of the
    request itself is the [fetched = None] of [get_new_trades]. *)
Definition _fetch_activity (data : list (gmap string json * datetime))
  : res (list (TradeOf json)) :=
  fetch_loop data [].

(** The trade a record contributes, if it is a TRADE record and the
    parser returns one. *)
Definition contribution (record : gmap string json * datetime)
  : option (TradeOf json) :=
  if is_trade_record record.1 then
    match _parse_trade upper fromisoformat py_float py_str
            record.1 record.2 with
    | Ret (Some t) => Some t
    | _ => None
    end
  else None.

(** The parser raises on the record, and the record is a TRADE record. *)
Definition escapes (e : PyExc) (record : gmap string json * datetime)
  : Prop :=
  is_trade_record record.1 = true
  /\ _parse_trade upper fromisoformat py_float py_str record.1 record.2
     = Raise e.

Definition quiet (record : gmap string json * datetime) : Prop :=
  forall e, ~ escapes e record.

End Fetch.

End Feed.

Module FeedSamples.

Import Tracker.

(** A TRADE record as the feed could send it, without timestamp. *)
Definition plain_record : gmap string json :=
  <["type" := JStr "TRADE"]> Samples.odd_side_item.

(** The same with the time as seconds since the epoch. *)
Definition epoch_record : gmap string json :=
  <["timestamp" := JInt 1700000000]> plain_record.

(** The same with a time that is no ISO date. *)
Definition undated_record : gmap string json :=
  <["timestamp" := JStr "yesterday"]> plain_record.

(** A record of another activity type. *)
Definition reward_record : gmap string json :=
  <["type" := JStr "REWARD"]> Samples.odd_side_item.

End FeedSamples.

(** ** config.py: [Config.from_env] *)

Module ConfigEnv.

Import Tracker Config.

Section FromEnv.

(** [float(s)] and [int(s)] on a string. *)
Variable float_of_str : string -> res float.
Variable int_of_str : string -> res Z.

(** [env] is the process environment once [load_dotenv()] has run;
    [os.getenv(key)] is the lookup, [os.getenv(key, d)] the lookup with
    a default.  [if not value] holds for a missing variable and for an
    empty one. *)
Definition from_env (env : gmap string string) : res Config :=
  let private_key := env !! "PRIVATE_KEY" in
  match private_key with
  | None => Raise ValueError
  | Some pk =>
      if String.eqb pk "" then Raise ValueError
      else
        match env !! "TARGET_ADDRESS" with
        | None => Raise ValueError
        | Some addr =>
            if String.eqb addr "" then Raise ValueError
            else
              amount ← float_of_str (default "10" (env !! "TRADE_AMOUNT"));
              interval ← int_of_str (default "10" (env !! "POLL_INTERVAL"));
              Ret {| private_key := pk;
                     target_address := addr;
                     trade_amount := amount;
                     poll_interval := interval;
                     db_path := default "polybot.db" (env !! "DB_PATH");
                     chain_id := 137;
                     clob_url := "https://clob.polymarket.com";
                     data_api_url := "https://data-api.polymarket.com" |}
        end
  end.

End FromEnv.

End ConfigEnv.

(** ** executor.py *)

Module Executor.

Import Tracker.

#[local] Set Warnings "-inexact-float".

Definition SLIPPAGE_BUFFER : float := 0.02.

(** The highest price a buy is placed at, the lowest a sell is. *)
Definition buy_cap : float := 0.99.
Definition sell_floor : float := 0.01.

#[local] Set Warnings "inexact-float".

(** [min(a, b)] and [max(a, b)] of Python: the first argument unless the
    second is strictly smaller, respectively greater. *)
Definition py_min (a b : float) : float := if (b <? a)%float then b else a.
Definition py_max (a b : float) : float := if (a <? b)%float then b else a.

(** The values the constructor [OrderArgs] of the venue's library is
    called with; [order_type=OrderType.GTC] is passed besides in every
    call. *)
Record OrderArgs := mkOrderArgs {
  oa_token_id : string;
  oa_price : float;
  oa_size : float;
  oa_side : string
}.

(** The venue, seen from the two functions below: what [get_price] and
    [create_and_post_order] answer, [None] when the call raises. *)
Record Client := mkClient {
  get_price : string -> string -> option (gmap string json);
  create_and_post_order : OrderArgs -> option (gmap string json)
}.

Section Orders.

(** [float(...)] *)
Variable py_float : json -> res float.

(** Whether the constructor [OrderArgs] returns on these values and the
    keyword [order_type], or raises (the library is not part of this
    program; a version of it whose [OrderArgs] has no [order_type] field
    raises TypeError on every call). *)
Variable accepts : OrderArgs -> bool.

(** [except Exception] turns every failure into [None]. *)
Definition _get_price (client : Client) (token : string)
    (sd : TradeSide) : option float :=
  let side_str := match sd with BUY => "BUY" | SELL => "SELL" end in
  match get_price client token side_str with
  | None => None
  | Some response =>
      let price_str := get response "price" in
      if json_truthy price_str then
        match py_float price_str with
        | Ret p => Some p
        | Raise _ => None
        end
      else None
  end.

(** [buy] and [sell] on an initialised executor: the orders handed to
    [create_and_post_order] (one at most) and the value returned, [JNull]
    being Python's [None].  A division by a limit price equal to zero
    raises ZeroDivisionError; like the exception of the constructor and
    of the venue it is caught by [except Exception], and [None] is
    returned. *)
Definition buy (client : Client) (token : string) (amount : float)
  : list OrderArgs * json :=
  match _get_price client token BUY with
  | None => ([], JNull)
  | Some price =>
      let limit_price := py_min (price + SLIPPAGE_BUFFER)%float buy_cap in
      if (limit_price =? 0)%float then ([], JNull)
      else
        let order_args :=
          {| oa_token_id := token;
             oa_price := limit_price;
             oa_size := (amount / limit_price)%float;
             oa_side := "BUY" |} in
        if accepts order_args then
          match create_and_post_order client order_args with
          | None => ([order_args], JNull)
          | Some response =>
              ([order_args],
               py_or (get response "orderID") (get response "order_id"))
          end
        else ([], JNull)
  end.

Definition sell (client : Client) (token : string) (shares : float)
  : list OrderArgs * json :=
  match _get_price client token SELL with
  | None => ([], JNull)
  | Some price =>
      let limit_price := py_max (price - SLIPPAGE_BUFFER)%float sell_floor in
      let order_args :=
        {| oa_token_id := token;
           oa_price := limit_price;
           oa_size := shares;
           oa_side := "SELL" |} in
      if accepts order_args then
        match create_and_post_order client order_args with
        | None => ([order_args], JNull)
        | Some response =>
            ([order_args],
             py_or (get response "orderID") (get response "order_id"))
        end
      else ([], JNull)
  end.

End Orders.

(** A venue that quotes 1.0 and acknowledges every order. *)
Definition sample_client : Client :=
  {| get_price := fun _ _ => Some (<["price" := JStr "1.0"]> ∅);
     create_and_post_order :=
       fun _ => Some (<["orderID" := JStr "order-1"]> ∅) |}.

(** A stand-in for [float] on the sample quote. *)
Definition sample_float (v : json) : res float :=
  match v with
  | JStr "1.0" => Ret 1%float
  | JFloat f => Ret f
  | _ => Raise ValueError
  end.

(** The constructor of a library whose [OrderArgs] has no field
    [order_type]: it raises on every call of [buy] and [sell]. *)
Definition strict_constructor (args : OrderArgs) : bool := false.

(** The constructor of a library whose [OrderArgs] takes the keyword. *)
Definition lenient_constructor (args : OrderArgs) : bool := true.

End Executor.

(** * Properties *)

(** ** The ledger and the loop body *)

Section LedgerFacts.

Import Db PositionManager Main.




(** [fetchone] finds nothing exactly when no row is open on the token. *)
Lemma find_None_filter {A} (f : A -> bool) (l : list A) :
  find f l = None <-> List.filter f l = [].
Proof.
  induction l as [| x l IH]; cbn; [done |].
  destruct (f x); [split; discriminate | exact IH].
Qed.





Lemma record_entry_Some trade usd entry n1 n2 L r :
  record_entry trade usd entry n1 n2 L = Some r ->
  is_nan (entry_size usd entry) = false /\ is_nan entry = false
  /\ r.1 = (seq L + 1)%Z
  /\ exists row,
       row = {| id := Some (seq L + 1)%Z;
                p_market_id := market_id trade;
                p_token_id := token_id trade;
                p_side := side trade;
                amount := entry_size usd entry;
                entry_price := entry;
                opened_at := n1;
                closed_at := None;
                p_outcome := outcome trade |}
       /\ r.2 = mark_trade_processed n2 (trade_id trade)
                  {| positions := positions L ++ [row];
                     seq := (seq L + 1)%Z;
                     processed_trades := processed_trades L |}.
Proof.
  unfold record_entry, save_position, storable. cbn.
  destruct (is_nan (entry_size usd entry)), (is_nan entry); cbn;
    try discriminate.
  intros [= <-]. cbn. repeat split. eexists. split; reflexivity.
Qed.



(** The ledger after one iteration: untouched, marked, entered and
    marked, or closed and marked. *)
Lemma process_trade_ledger config env trade L :
  let L' := (process_trade config env trade L).2 in
  L' = L
  \/ (raises config env trade L = false
      /\ L' = mark_trade_processed (now1 env) (trade_id trade) L)
  \/ (raises config env trade L = false
      /\ enters env trade L = true
      /\ exists row,
           id row = Some (seq L + 1)%Z
           /\ p_token_id row = token_id trade
           /\ closed_at row = None
           /\ amount row
              = entry_size (Config.trade_amount config) (price trade)
           /\ L' = mark_trade_processed (now2 env) (trade_id trade)
                     {| positions := positions L ++ [row];
                        seq := (seq L + 1)%Z;
                        processed_trades := processed_trades L |})
  \/ (raises config env trade L = false
      /\ exists q,
           get_position_by_token L (token_id trade) = Some q
           /\ L' = mark_trade_processed (now2 env) (trade_id trade)
                     (close_position (now1 env) (id q) L)).
Proof.
  cbn zeta.
  unfold process_trade, raises, iteration, enters,
    PositionManager.is_trade_processed, mark_processed, get_position,
    record_exit.
  destruct (Db.is_trade_processed L (trade_id trade)); [now left |].
  destruct (is_buy trade).
  - destruct (truthy (order_id env)); cbn; [| now right; left].
    destruct (record_entry trade (Config.trade_amount config) (price trade)
                (now1 env) (now2 env) L) as [r |] eqn:E; cbn; [| now left].
    apply record_entry_Some in E as (_ & _ & _ & row & -> & ->).
    right; right; left. split; [reflexivity |]. split; [reflexivity |].
    eexists. repeat split; reflexivity.
  - destruct (is_sell trade); [| now left].
    destruct (get_position_by_token L (token_id trade)) as [q |] eqn:E;
      [| now right; left].
    destruct (truthy (order_id env)); cbn; [| now right; left].
    right; right; right. split; [reflexivity |]. now exists q.
Qed.







End LedgerFacts.











(** ** Open positions per token *)

Section OpenPositions.

Import Db PositionManager Main.

Lemma close_row_open_on token now pid p :
  open_on token (close_row now pid p) = true -> open_on token p = true.
Proof.
  unfold close_row. destruct (bool_decide (id p = pid)); [| done].
  unfold open_on, is_open. cbn. now rewrite andb_false_r.
Qed.

Lemma closing_opens_nothing token now pid (rows : list Position) :
  length (List.filter (open_on token) (map (close_row now pid) rows))
  <= length (List.filter (open_on token) rows).
Proof.
  induction rows as [| p rows IH]; cbn; [lia |].
  destruct (open_on token (close_row now pid p)) eqn:E.
  - rewrite (close_row_open_on _ _ _ _ E). cbn. lia.
  - destruct (open_on token p); cbn; lia.
Qed.

(** One iteration keeps "at most one open position per token" unless it
    copies a BUY on a token that has an open position. *)
Lemma process_trade_one_open config env trade L :
  (forall token, open_count token L <= 1) ->
  (enters env trade L = true -> has_position L (token_id trade) = false) ->
  forall token, open_count token (process_trade config env trade L).2 <= 1.
Proof.
  intros Hinv Hguard token. specialize (Hinv token).
  destruct (process_trade_ledger config env trade L)
    as [-> | [[_ ->] | [(_ & He & row & _ & Htok & Hcl & _ & ->)
                       | (_ & q & _ & ->)]]];
    [exact Hinv | exact Hinv | |].
  - specialize (Hguard He). unfold has_position in Hguard.
    destruct (get_position_by_token L (token_id trade)) eqn:Hf;
      [discriminate |].
    apply find_None_filter in Hf.
    unfold open_count in *. cbn. rewrite List.filter_app, length_app. cbn.
    unfold open_on at 2, is_open. rewrite Htok, Hcl, andb_true_r.
    destruct (bool_decide (token_id trade = token)) eqn:Ht; cbn; [| lia].
    apply bool_decide_eq_true in Ht. subst token. rewrite Hf. cbn. lia.
  - unfold open_count in *. cbn.
    etransitivity; [apply closing_opens_nothing | exact Hinv].
Qed.

Lemma run_one_open config steps : forall L,
  (forall token, open_count token L <= 1) ->
  no_reentry config steps L = true ->
  forall token, open_count token (run config steps L).2 <= 1.
Proof.
  induction steps as [| [trade env] rest IH]; intros L Hinv Hg; [exact Hinv |].
  cbn in Hg. apply andb_prop in Hg as [Hstep Hrest]. cbn [run snd].
  apply IH; [| exact Hrest].
  apply process_trade_one_open; [exact Hinv |].
  intros He. rewrite He in Hstep. now apply negb_true_iff in Hstep.
Qed.

Lemma no_reentry_take config steps : forall n L,
  no_reentry config steps L = true ->
  no_reentry config (take n steps) L = true.
Proof.
  induction steps as [| [trade env] rest IH]; intros [| n] L H; try done.
  cbn in *. apply andb_prop in H as [-> H]. cbn. now apply IH.
Qed.

End OpenPositions.

(** C1, as stated, fails: the target buys the same token twice, the two
    purchases carry different trade_ids, both are copied, and the ledger
    holds two open positions on the token. *)
Lemma two_buys_two_open_positions :
  ~ (forall config steps token,
        Main.open_count token (Main.run config steps Db.init_db).2 <= 1).
Proof.
  intros H. specialize (H Samples.config Samples.two_buys "T1").
  vm_compute in H. lia.
Qed.

(** C1, amended.  From the empty ledger, after any number of steps of any
    sequence of BUY and SELL trades in which no BUY is copied on a token
    that has an open position at that moment, every token has at most one
    open position. *)
Theorem one_open_position_without_reentry config steps :
  Main.no_reentry config steps Db.init_db = true ->
  forall n token,
    Main.open_count token (Main.run config (take n steps) Db.init_db).2 <= 1.
Proof.
  intros H n token.
  apply run_one_open; [intros tok; cbn; lia |].
  now apply no_reentry_take.
Qed.

Lemma one_open_position_without_reentry_witness :
  Main.no_reentry Samples.config Samples.buy_sell_buy Db.init_db = true
  /\ Main.open_count "T1"
       (Main.run Samples.config (take 3 Samples.buy_sell_buy)
          Db.init_db).2 <= 1.
Proof.
  split; [vm_compute; reflexivity |].
  apply (one_open_position_without_reentry Samples.config
           Samples.buy_sell_buy).
  vm_compute; reflexivity.
Defined.


(** ** The tracker *)

Section TrackerFacts.

Import Tracker.

Lemma same_kind_eq a b : same_kind a b = true <-> aware a = aware b.
Proof. unfold same_kind. apply Bool.eqb_true_iff. Qed.

Lemma same_kind_refl a : same_kind a a = true.
Proof. now apply same_kind_eq. Qed.

Lemma same_kind_aware a b c :
  aware b = aware c -> same_kind a b = same_kind a c.
Proof. unfold same_kind. now intros ->. Qed.

Lemma all_of_kind_aware m m' trades :
  aware m = aware m' -> all_of_kind m trades = all_of_kind m' trades.
Proof.
  intros H. unfold all_of_kind.
  induction trades as [| t rest IH]; [done |]. cbn.
  now rewrite IH, (same_kind_aware (timestamp t) m m' H).
Qed.

Lemma all_of_kind_elem m trades :
  all_of_kind m trades = true
  <-> forall t, t ∈ trades -> aware (timestamp t) = aware m.
Proof.
  unfold all_of_kind. rewrite forallb_forall. split.
  - intros H t Ht. apply same_kind_eq, H. now apply list_elem_of_In.
  - intros H t Ht. apply same_kind_eq, H. now apply list_elem_of_In.
Qed.

Lemma all_of_kind_uniform m trades :
  all_of_kind m trades = true -> uniform trades = true.
Proof.
  destruct trades as [| t rest]; [done |]. cbn.
  intros H. apply andb_prop in H as [Ht Hrest].
  apply same_kind_eq in Ht.
  now rewrite (all_of_kind_aware _ m rest Ht).
Qed.

Lemma all_of_kind_filter m (f : Trade -> bool) trades :
  all_of_kind m trades = true -> all_of_kind m (List.filter f trades) = true.
Proof.
  rewrite !all_of_kind_elem. intros H t Ht. apply H.
  apply list_elem_of_In. apply list_elem_of_In in Ht.
  now apply filter_In in Ht.
Qed.

(** [max] on timestamps of one kind, and on timestamps of both. *)

Lemma max_from_one_kind rest : forall m,
  all_of_kind m rest = true ->
  exists m', max_from m rest = Ret m'
    /\ aware m' = aware m
    /\ (ticks m <= ticks m')%Z
    /\ (m' = m \/ exists t, t ∈ rest /\ timestamp t = m')
    /\ forall t, t ∈ rest -> (ticks (timestamp t) <= ticks m')%Z.
Proof.
  induction rest as [| u rest IH]; intros m H.
  - exists m. cbn. repeat split; [lia | now left |].
    intros t Ht. inversion Ht.
  - cbn in H. apply andb_prop in H as [Hu Hrest].
    cbn [max_from]. unfold gt. rewrite Hu.
    apply same_kind_eq in Hu.
    set (m1 := if (ticks (timestamp u) >? ticks m)%Z then timestamp u else m).
    assert (Hk : aware m1 = aware m)
      by (unfold m1; now destruct (ticks (timestamp u) >? ticks m)%Z).
    assert (Hge : (ticks m <= ticks m1)%Z
                  /\ (ticks (timestamp u) <= ticks m1)%Z).
    { unfold m1. destruct (ticks (timestamp u) >? ticks m)%Z eqn:E.
      - apply Z.gtb_gt in E. lia.
      - rewrite Z.gtb_ltb in E. apply Z.ltb_ge in E. lia. }
    destruct (IH m1) as (m' & Hm' & Hk' & Hle & Hfrom & Hmax).
    { now rewrite (all_of_kind_aware m1 m rest Hk). }
    exists m'. split; [exact Hm' |]. split; [congruence |].
    split; [lia |]. split.
    + destruct Hfrom as [-> | (t & Ht & E)].
      * unfold m1. destruct (ticks (timestamp u) >? ticks m)%Z;
          [right; exists u; split; [left | done] | now left].
      * right. exists t. split; [now right | done].
    + intros t Ht. apply elem_of_cons in Ht as [-> | Ht]; [lia |].
      now apply Hmax.
Qed.

Lemma max_from_two_kinds rest : forall m,
  all_of_kind m rest = false -> max_from m rest = Raise TypeError.
Proof.
  induction rest as [| u rest IH]; intros m H; [discriminate |].
  cbn in H. cbn [max_from]. unfold gt.
  destruct (same_kind (timestamp u) m) eqn:Hu; [| reflexivity].
  cbn in H. apply same_kind_eq in Hu. apply IH.
  rewrite <- H. apply all_of_kind_aware.
  now destruct (ticks (timestamp u) >? ticks m)%Z.
Qed.

Lemma max_timestamp_one_kind t rest :
  uniform (t :: rest) = true ->
  exists m, max_timestamp (t :: rest) = Ret m
            /\ greatest_timestamp m (t :: rest).
Proof.
  cbn. intros H.
  destruct (max_from_one_kind rest (timestamp t) H)
    as (m & Hm & Hk & Hle & Hfrom & Hmax).
  exists m. split; [exact Hm |]. split.
  - destruct Hfrom as [-> | (u & Hu & E)].
    + exists t. split; [left | done].
    + exists u. split; [now right | done].
  - intros u Hu. apply elem_of_cons in Hu as [-> | Hu]; [split; [done | lia] |].
    split; [| now apply Hmax].
    rewrite Hk. now apply (proj1 (all_of_kind_elem _ _) H).
Qed.

Lemma max_timestamp_two_kinds t rest :
  uniform (t :: rest) = false ->
  max_timestamp (t :: rest) = Raise TypeError.
Proof. cbn. apply max_from_two_kinds. Qed.

(** The comprehension on timestamps of the kind of the watermark, and on
    others. *)

Lemma newer_trades_one_kind last trades :
  all_of_kind last trades = true ->
  newer_trades last trades = Ret (List.filter (newer_than last) trades).
Proof.
  induction trades as [| t rest IH]; [done |].
  cbn. intros H. apply andb_prop in H as [Ht Hrest].
  unfold gt. rewrite Ht, (IH Hrest). reflexivity.
Qed.

Lemma newer_trades_two_kinds last trades :
  all_of_kind last trades = false ->
  newer_trades last trades = Raise TypeError.
Proof.
  induction trades as [| t rest IH]; [discriminate |].
  cbn. unfold gt.
  destruct (same_kind (timestamp t) last); [| reflexivity].
  cbn. intros H. now rewrite (IH H).
Qed.

(** The sort: a permutation, in ascending order, stable. *)

Lemma insert_by_timestamp_perm t l :
  Permutation (insert_by_timestamp t l) (t :: l).
Proof.
  induction l as [| u l IH]; cbn; [done |].
  destruct (ticks (timestamp t) <=? ticks (timestamp u))%Z; [done |].
  rewrite IH. apply perm_swap.
Qed.

Lemma stable_sort_perm l : Permutation (stable_sort l) l.
Proof.
  induction l as [| t l IH]; cbn; [done |].
  now rewrite insert_by_timestamp_perm, IH.
Qed.

Lemma insert_by_timestamp_sorted t l :
  Sorted older_ticks l -> Sorted older_ticks (insert_by_timestamp t l).
Proof.
  induction 1 as [| u l Hl IH Hu]; cbn.
  - repeat constructor.
  - destruct (ticks (timestamp t) <=? ticks (timestamp u))%Z eqn:E.
    + constructor; [now constructor |]. constructor.
      unfold older_ticks. lia.
    + constructor; [exact IH |].
      destruct Hu as [| v l' Huv]; cbn.
      * constructor. unfold older_ticks. lia.
      * destruct (ticks (timestamp t) <=? ticks (timestamp v))%Z;
          constructor; unfold older_ticks in *; lia.
Qed.

Lemma stable_sort_sorted_ticks l : Sorted older_ticks (stable_sort l).
Proof.
  induction l as [| t l IH]; cbn; [constructor |].
  now apply insert_by_timestamp_sorted.
Qed.

Lemma sorted_one_kind m l :
  Sorted older_ticks l -> all_of_kind m l = true -> Sorted older_or_same l.
Proof.
  intros Hs Hk. rewrite all_of_kind_elem in Hk.
  induction Hs as [| u l Hl IH Hu]; [constructor |].
  constructor.
  - apply IH. intros t Ht. apply Hk. now right.
  - destruct Hu as [| v l' Huv]; constructor.
    split; [| exact Huv].
    rewrite (Hk u), (Hk v); [done | right; left | left].
Qed.

Lemma stable_sort_one_kind m l :
  all_of_kind m l = true -> all_of_kind m (stable_sort l) = true.
Proof.
  rewrite !all_of_kind_elem. intros H t Ht. apply H.
  now rewrite <- (stable_sort_perm l).
Qed.

Lemma stable_sort_sorted m l :
  all_of_kind m l = true -> Sorted older_or_same (stable_sort l).
Proof.
  intros H. apply (sorted_one_kind m);
    [apply stable_sort_sorted_ticks | now apply stable_sort_one_kind].
Qed.



Lemma sort_by_timestamp_one_kind m l :
  all_of_kind m l = true -> sort_by_timestamp l = Ret (stable_sort l).
Proof.
  intros H. unfold sort_by_timestamp.
  now rewrite (all_of_kind_uniform m l H).
Qed.

Lemma elem_of_new_trades last trades t :
  t ∈ stable_sort (List.filter (newer_than last) trades)
  <-> t ∈ trades /\ (ticks last < ticks (timestamp t))%Z.
Proof.
  rewrite (stable_sort_perm _), list_elem_of_In, filter_In,
    <- list_elem_of_In.
  unfold newer_than. now rewrite Z.gtb_gt, Z.gt_lt_iff.
Qed.

(** A call on a tracker whose watermark is unset. *)
Lemma cold_start_call self t rest :
  last_seen_timestamp self = None ->
  uniform (t :: rest) = true ->
  exists m, greatest_timestamp m (t :: rest)
    /\ get_new_trades self (Some (t :: rest))
       = ([], with_last_seen self (Some m)).
Proof.
  intros H Hu. destruct (max_timestamp_one_kind t rest Hu) as (m & Hm & Hg).
  exists m. split; [exact Hg |].
  unfold get_new_trades, _filter_new_trades. rewrite H, Hm. reflexivity.
Qed.

Lemma cold_start_mixed self t rest :
  last_seen_timestamp self = None ->
  uniform (t :: rest) = false ->
  get_new_trades self (Some (t :: rest)) = ([], self).
Proof.
  intros H Hu. unfold get_new_trades, _filter_new_trades.
  now rewrite H, (max_timestamp_two_kinds t rest Hu).
Qed.

Lemma cold_start_empty self :
  last_seen_timestamp self = None ->
  get_new_trades self (Some []) = ([], self).
Proof.
  intros H. unfold get_new_trades, _filter_new_trades. now rewrite H.
Qed.

(** A call on a tracker whose watermark is [last]. *)
Lemma steady_call self last trades :
  last_seen_timestamp self = Some last ->
  all_of_kind last trades = true ->
  let new_trades := stable_sort (List.filter (newer_than last) trades) in
  (new_trades = [] /\ get_new_trades self (Some trades) = ([], self))
  \/ (new_trades <> []
      /\ exists m, greatest_timestamp m new_trades
           /\ get_new_trades self (Some trades)
              = (new_trades, with_last_seen self (Some m))).
Proof.
  intros H Hk. cbn zeta.
  assert (Hf : all_of_kind last (List.filter (newer_than last) trades) = true)
    by now apply all_of_kind_filter.
  unfold get_new_trades, _filter_new_trades.
  rewrite H, (newer_trades_one_kind last trades Hk). cbn.
  rewrite (sort_by_timestamp_one_kind last _ Hf). cbn.
  pose proof (stable_sort_one_kind last _ Hf) as Hs.
  destruct (stable_sort (List.filter (newer_than last) trades))
    as [| t rest] eqn:E; [now left |].
  right. split; [done |].
  destruct (max_timestamp_one_kind t rest (all_of_kind_uniform last _ Hs))
    as (m & Hm & Hg).
  exists m. split; [exact Hg |]. now rewrite Hm.
Qed.

Lemma steady_mixed self last trades :
  last_seen_timestamp self = Some last ->
  all_of_kind last trades = false ->
  get_new_trades self (Some trades) = ([], self).
Proof.
  intros H Hk. unfold get_new_trades, _filter_new_trades.
  now rewrite H, (newer_trades_two_kinds last trades Hk).
Qed.

Lemma wm_le_refl a : wm_le a a.
Proof. destruct a; cbn; [split; [done | lia] | done]. Qed.

Lemma wm_le_trans a b c : wm_le a b -> wm_le b c -> wm_le a c.
Proof.
  destruct a, b, c; cbn; try done.
  intros [? ?] [? ?]. split; [congruence | lia].
Qed.

Lemma wm_leb_le a b : wm_leb a b = true <-> wm_le a b.
Proof.
  destruct a, b; cbn; try done.
  rewrite andb_true_iff, same_kind_eq, Z.leb_le. reflexivity.
Qed.

(** [get_new_trades] emits only trades above the watermark it starts from
    and leaves the watermark where it was or higher. *)
Lemma get_new_trades_forward self fetched :
  wm_le (last_seen_timestamp self)
    (last_seen_timestamp (get_new_trades self fetched).2)
  /\ forall t, t ∈ (get_new_trades self fetched).1 ->
       exists last, last_seen_timestamp self = Some last
                    /\ aware (timestamp t) = aware last
                    /\ (ticks last < ticks (timestamp t))%Z.
Proof.
  destruct fetched as [trades |].
  2: { cbn. split; [apply wm_le_refl | intros t Ht; inversion Ht]. }
  destruct (last_seen_timestamp self) as [last |] eqn:H.
  - destruct (all_of_kind last trades) eqn:Hk.
    + destruct (steady_call self last trades H Hk)
        as [[_ ->] | (Hne & m & Hg & ->)]; cbn [fst snd].
      * rewrite H. split; [apply wm_le_refl | intros t Ht; inversion Ht].
      * split.
        -- cbn. destruct Hg as [(t & Ht & <-) _].
           pose proof Ht as Ht'. apply elem_of_new_trades in Ht' as [Hin Hlt].
           split; [| lia]. symmetry.
           now apply (proj1 (all_of_kind_elem last trades) Hk).
        -- intros t Ht. exists last. split; [done |].
           apply elem_of_new_trades in Ht as [Hin Hlt].
           split; [| exact Hlt].
           now apply (proj1 (all_of_kind_elem last trades) Hk).
    + rewrite (steady_mixed self last trades H Hk). cbn [fst snd].
      rewrite H.
      split; [apply wm_le_refl | intros t Ht; inversion Ht].
  - split; [done |].
    destruct trades as [| t rest].
    + rewrite (cold_start_empty self H). intros t Ht. inversion Ht.
    + destruct (uniform (t :: rest)) eqn:Hu.
      * destruct (cold_start_call self t rest H Hu) as (m & _ & ->).
        intros u Hu'. inversion Hu'.
      * rewrite (cold_start_mixed self t rest H Hu).
        intros u Hu'. inversion Hu'.
Qed.

Lemma seeded_calls_forward cs : forall self,
  seeds_forward cs self = true ->
  wm_le (last_seen_timestamp self) (last_seen_timestamp (calls cs self).2).
Proof.
  induction cs as [| c cs IH]; intros self H.
  - cbn. apply wm_le_refl.
  - cbn in H. apply andb_prop in H as [Hc Hrest]. cbn [calls].
    apply wm_le_trans with (last_seen_timestamp (call c self).2);
      [| now apply IH].
    destruct c as [fetched | ts]; cbn.
    + apply get_new_trades_forward.
    + now apply wm_leb_le.
Qed.

Lemma polls_seed_forward fetches : forall self,
  seeds_forward (map GetNewTrades fetches) self = true.
Proof. induction fetches as [| f fs IH]; intros self; cbn; auto. Qed.

(** The polls after the watermark has reached [m] emit nothing stamped
    [m] or older. *)
Lemma polls_emit_newer fetches : forall self m t,
  wm_le (Some m) (last_seen_timestamp self) ->
  t ∈ (calls (map GetNewTrades fetches) self).1 ->
  aware (timestamp t) = aware m /\ (ticks m < ticks (timestamp t))%Z.
Proof.
  induction fetches as [| f fs IH]; intros self m t Hm Hin; cbn in Hin.
  - inversion Hin.
  - destruct (get_new_trades_forward self f) as [Hle Hnew].
    apply elem_of_app in Hin as [Hin | Hin].
    + destruct (Hnew t Hin) as (last & Hl & Hk & Hlt).
      rewrite Hl in Hm. cbn in Hm. destruct Hm as [Hkm Hm].
      split; [congruence | lia].
    + apply (IH (get_new_trades self f).2); [| done].
      now apply wm_le_trans with (last_seen_timestamp self).
Qed.

End TrackerFacts.










(** C5, as stated, fails: [set_last_seen] stores the timestamp it is
    given, also below the watermark. *)
Lemma set_last_seen_lowers_watermark :
  ~ (forall cs self,
        Tracker.wm_le (Tracker.last_seen_timestamp self)
          (Tracker.last_seen_timestamp (Tracker.calls cs self).2)).
Proof.
  intros H.
  specialize (H [Tracker.SetLastSeen (naive 3)]
                (Samples.tracker (Some (naive 5)))).
  cbn in H. lia.
Qed.

(** C5, amended.  No [get_new_trades] lowers the watermark, whatever is
    fetched (unset counting as below every timestamp), so the watermark
    never decreases along polls; [set_last_seen] replaces the watermark
    by its argument; along a sequence of calls of both kinds the
    watermark does not decrease provided every [set_last_seen] is given a
    timestamp that is not below the watermark of that moment. *)
Theorem watermark_monotone :
  (forall self fetched,
      Tracker.wm_le (Tracker.last_seen_timestamp self)
        (Tracker.last_seen_timestamp
           (Tracker.get_new_trades self fetched).2))
  /\ (forall self ts,
      Tracker.last_seen_timestamp (Tracker.set_last_seen self ts) = Some ts)
  /\ (forall fetches self,
      Tracker.wm_le (Tracker.last_seen_timestamp self)
        (Tracker.last_seen_timestamp
           (Tracker.calls (map Tracker.GetNewTrades fetches) self).2))
  /\ (forall cs self,
      Tracker.seeds_forward cs self = true ->
      Tracker.wm_le (Tracker.last_seen_timestamp self)
        (Tracker.last_seen_timestamp (Tracker.calls cs self).2)).
Proof.
  split; [intros; apply get_new_trades_forward |].
  split; [reflexivity |].
  split; [| apply seeded_calls_forward].
  intros fetches self. apply seeded_calls_forward, polls_seed_forward.
Qed.

Lemma watermark_monotone_witness :
  let cs := [Tracker.GetNewTrades (Some [Samples.trade "x" BUY 7]);
             Tracker.SetLastSeen (with_offset 9);
             Tracker.GetNewTrades (Some [Samples.trade "y" SELL 12;
                                         Samples.trade "z" BUY 4])] in
  Tracker.seeds_forward cs (Samples.tracker None) = true
  /\ Tracker.wm_le None
       (Tracker.last_seen_timestamp
          (Tracker.calls cs (Samples.tracker None)).2).
Proof.
  cbn zeta. split; [reflexivity |].
  apply (proj2 (proj2 (proj2 watermark_monotone))
           _ (Samples.tracker None)).
  reflexivity.
Defined.

(** ** The record parser *)

Section ParserFacts.

Import Tracker.

Variable upper : string -> string.
Variable fromisoformat : string -> res moment.
Variable py_float : json -> res float.
Variable py_str : json -> string.










End ParserFacts.



(** * Further properties *)

(** ** Markers *)

Section Markers.

Import Db PositionManager Main Resume.

Lemma mark_keeps_rows now tid L tid' t :
  processed_trades L !! tid' = Some t ->
  processed_trades (mark_trade_processed now tid L) !! tid' = Some t.
Proof.
  intros H. unfold mark_trade_processed. cbn.
  destruct (processed_trades L !! tid) eqn:E; [exact H |].
  rewrite lookup_insert_ne; [exact H | congruence].
Qed.

Lemma mark_other_row now tid L tid' :
  tid' <> tid ->
  processed_trades (mark_trade_processed now tid L) !! tid'
  = processed_trades L !! tid'.
Proof.
  intros H. unfold mark_trade_processed. cbn.
  destruct (processed_trades L !! tid) eqn:E; [done |].
  now rewrite lookup_insert_ne.
Qed.

Lemma process_trade_keeps_rows config env trade L tid t :
  processed_trades L !! tid = Some t ->
  processed_trades (process_trade config env trade L).2 !! tid = Some t.
Proof.
  intros H.
  destruct (process_trade_ledger config env trade L)
    as [-> | [[_ ->] | [(_ & _ & row & _ & _ & _ & _ & ->)
                       | (_ & q & _ & ->)]]];
    [exact H | now apply mark_keeps_rows ..].
Qed.

Lemma process_trade_other_rows config env trade L tid :
  tid <> trade_id trade ->
  processed_trades (process_trade config env trade L).2 !! tid
  = processed_trades L !! tid.
Proof.
  intros H.
  destruct (process_trade_ledger config env trade L)
    as [-> | [[_ ->] | [(_ & _ & row & _ & _ & _ & _ & ->)
                       | (_ & q & _ & ->)]]];
    [reflexivity | now rewrite mark_other_row ..].
Qed.

End Markers.

(** X1.  A marker is written once: the [processed_at] recorded for a
    trade_id stays what it is through any further trades (INSERT OR
    IGNORE never replaces it). *)
Theorem marker_written_once config steps : forall L tid t,
  Db.processed_trades L !! tid = Some t ->
  Db.processed_trades (Main.run config steps L).2 !! tid = Some t.
Proof.
  induction steps as [| [trade env] rest IH]; intros L tid t H; [exact H |].
  cbn [Main.run snd]. apply IH. now apply process_trade_keeps_rows.
Qed.

Lemma marker_written_once_witness :
  Db.processed_trades Samples.holding !! "a" = Some 101%Z
  /\ Db.processed_trades
       (Main.run Samples.config
          [(Samples.trade "a" SELL 9, Samples.placed 900);
           (Samples.trade "b" SELL 10, Samples.failed 950)]
          Samples.holding).2 !! "a" = Some 101%Z.
Proof.
  assert (H : Db.processed_trades Samples.holding !! "a" = Some 101%Z)
    by reflexivity.
  split; [exact H |].
  apply (marker_written_once Samples.config _ Samples.holding "a" 101%Z H).
Defined.

(** X2.  One iteration of the loop touches the marker of its own trade
    only: the marker table is the same at every other trade_id. *)
Theorem marks_only_own_trade config env trade L tid :
  tid <> trade_id trade ->
  Db.processed_trades (Main.process_trade config env trade L).2 !! tid
  = Db.processed_trades L !! tid.
Proof. apply process_trade_other_rows. Qed.

Lemma marks_only_own_trade_witness :
  Db.processed_trades
    (Main.process_trade Samples.config (Samples.placed 100)
       (Samples.trade "a" BUY 1) Db.init_db).2 !! "b" = None.
Proof.
  rewrite (marks_only_own_trade Samples.config (Samples.placed 100)
             (Samples.trade "a" BUY 1) Db.init_db "b");
    [reflexivity | discriminate].
Defined.



(** ** Rows of the positions table *)

Section Rows.

Import Db PositionManager Main Resume.

Lemma numbered_init : numbered init_db.
Proof. split; [reflexivity |]. intros i p H. inversion H. Qed.

Lemma numbered_mark now tid L :
  numbered L -> numbered (mark_trade_processed now tid L).
Proof. intros H. exact H. Qed.

Lemma close_row_same_row now pid p : same_row p (close_row now pid p).
Proof.
  unfold close_row, same_row.
  destruct (bool_decide (id p = pid)); cbn; repeat split; reflexivity.
Qed.

Lemma numbered_close now pid L :
  numbered L -> numbered (close_position now pid L).
Proof.
  intros [Hseq Hid]. split; cbn.
  - now rewrite length_map.
  - intros i p H. rewrite list_lookup_fmap in H.
    destruct (positions L !! i) as [p0 |] eqn:E; [| discriminate].
    injection H as <-.
    rewrite <- (Hid i p0 E). apply (close_row_same_row now pid p0).
Qed.

Lemma numbered_append now tid L row :
  numbered L ->
  id row = Some (seq L + 1)%Z ->
  numbered (mark_trade_processed now tid
              {| positions := positions L ++ [row];
                 seq := (seq L + 1)%Z;
                 processed_trades := processed_trades L |}).
Proof.
  intros [Hseq Hid] Hrow.
  apply numbered_mark. split; cbn.
  - rewrite length_app, Hseq. cbn. lia.
  - intros i p H. apply lookup_app_Some in H as [H | [Hge H]].
    + now apply Hid.
    + destruct (i - length (positions L))%nat as [| k] eqn:Ek;
        [| now destruct k].
      injection H as <-. rewrite Hrow, Hseq. f_equal. lia.
Qed.

Lemma process_trade_numbered config env trade L :
  numbered L -> numbered (process_trade config env trade L).2.
Proof.
  intros H.
  destruct (process_trade_ledger config env trade L)
    as [-> | [[_ ->] | [(_ & _ & row & Hrow & _ & _ & _ & ->)
                       | (_ & q & _ & ->)]]]; try done.
  - now apply numbered_append.
  - now apply numbered_mark, numbered_close.
Qed.

Lemma run_numbered config steps : forall L,
  numbered L -> numbered (run config steps L).2.
Proof.
  induction steps as [| [trade env] rest IH]; intros L H; [exact H |].
  cbn [run snd]. now apply IH, process_trade_numbered.
Qed.

Lemma numbered_same_id L i j p q :
  numbered L ->
  positions L !! i = Some p -> positions L !! j = Some q ->
  id p = id q -> i = j.
Proof.
  intros [_ Hid] Hp Hq E.
  rewrite (Hid _ _ Hp), (Hid _ _ Hq) in E. injection E. lia.
Qed.

Lemma find_Some_lookup {A} (f : A -> bool) (l : list A) (x : A) :
  find f l = Some x ->
  exists j, l !! j = Some x /\ f x = true
            /\ forall k y, (k < j)%nat -> l !! k = Some y -> f y = false.
Proof.
  induction l as [| y l IH]; cbn; [discriminate |].
  destruct (f y) eqn:E.
  - intros [= ->]. exists 0%nat. repeat split; [done |].
    intros k z Hk. lia.
  - intros H. destruct (IH H) as (j & Hj & Hx & Hbefore).
    exists (S j). repeat split; [done | done |].
    intros [| k] z Hk Hz; cbn in Hz.
    + now injection Hz as <-.
    + apply (Hbefore k); [lia | done].
Qed.

(** With numbered rows, the UPDATE of [close_position] rewrites the one
    row it was aimed at. *)
Lemma close_position_one_row now L j q :
  numbered L ->
  positions L !! j = Some q ->
  positions (close_position now (id q) L)
  = <[j := close_row now (id q) q]> (positions L).
Proof.
  intros Hn Hq. cbn. apply list_eq. intros i.
  rewrite list_lookup_fmap.
  destruct (decide (i = j)) as [-> | Hne].
  - rewrite list_lookup_insert_eq by now apply lookup_lt_Some in Hq.
    now rewrite Hq.
  - rewrite list_lookup_insert_ne by done.
    destruct (positions L !! i) as [p |] eqn:Hp; [| done]. cbn.
    unfold close_row. rewrite bool_decide_eq_false_2; [done |].
    intros E. apply Hne. exact (numbered_same_id L i j p q Hn Hp Hq E).
Qed.

Lemma process_trade_row config env trade L i p :
  numbered L ->
  positions L !! i = Some p ->
  exists p', positions (process_trade config env trade L).2 !! i = Some p'
    /\ same_row p p'
    /\ (closed_at p <> None -> p' = p).
Proof.
  intros Hn Hp.
  assert (Hrefl : same_row p p) by (repeat split).
  destruct (process_trade_ledger config env trade L)
    as [-> | [[_ ->] | [(_ & _ & row & _ & _ & _ & _ & ->)
                       | (_ & q & Hq & ->)]]]; try (exists p; done).
  - exists p. cbn. split; [| done].
    apply lookup_app_l_Some. exact Hp.
  - destruct (find_Some_lookup _ _ _ Hq) as (j & Hj & Hopen & _).
    exists (close_row (now1 env) (id q) p). cbn.
    split; [now rewrite list_lookup_fmap, Hp |].
    split; [apply close_row_same_row |].
    intros Hclosed. unfold close_row.
    rewrite bool_decide_eq_false_2; [done |].
    intros E. assert (i = j) by exact (numbered_same_id L i j p q Hn Hp Hj E).
    subst j. rewrite Hp in Hj. injection Hj as ->.
    unfold open_on, is_open in Hopen. apply andb_prop in Hopen as [_ Ho].
    now destruct (closed_at q).
Qed.

Lemma same_row_trans p q r : same_row p q -> same_row q r -> same_row p r.
Proof.
  unfold same_row. intros H1 H2.
  destruct H1 as (?&?&?&?&?&?&?&?), H2 as (?&?&?&?&?&?&?&?).
  repeat split; congruence.
Qed.

Lemma run_row config steps : forall L i p,
  numbered L ->
  positions L !! i = Some p ->
  exists p', positions (run config steps L).2 !! i = Some p'
    /\ same_row p p'
    /\ (closed_at p <> None -> p' = p).
Proof.
  induction steps as [| [trade env] rest IH]; intros L i p Hn Hp.
  - exists p. repeat split; done.
  - cbn [run snd].
    destruct (process_trade_row config env trade L i p Hn Hp)
      as (p1 & Hp1 & Hsame1 & Hclosed1).
    destruct (IH _ i p1 (process_trade_numbered config env trade L Hn) Hp1)
      as (p2 & Hp2 & Hsame2 & Hclosed2).
    exists p2. split; [exact Hp2 |].
    split; [now apply same_row_trans with p1 |].
    intros Hc. pose proof (Hclosed1 Hc) as E1. subst p1.
    now apply Hclosed2.
Qed.

End Rows.

(** X4.  In every ledger the loop reaches from a fresh database, the
    rows of [positions] carry the ids 1, 2, 3, ... in the order of their
    insertion, the AUTOINCREMENT counter equals the number of rows, and
    no two rows share an id. *)
Theorem position_ids_count_up config steps :
  let L := (Main.run config steps Db.init_db).2 in
  Db.seq L = Z.of_nat (length (Db.positions L))
  /\ (forall i p, Db.positions L !! i = Some p
                  -> id p = Some (Z.of_nat i + 1)%Z)
  /\ NoDup (map id (Db.positions L)).
Proof.
  cbn zeta.
  destruct (run_numbered config steps Db.init_db numbered_init)
    as [Hseq Hid].
  split; [exact Hseq |]. split; [exact Hid |].
  apply NoDup_alt. intros i j x Hi Hj.
  rewrite list_lookup_fmap in Hi, Hj.
  destruct (Db.positions _ !! i) as [p |] eqn:Hp; [| discriminate].
  destruct (Db.positions _ !! j) as [q |] eqn:Hq; [| discriminate].
  cbn in Hi, Hj. injection Hi as Hi. injection Hj as Hj.
  rewrite (Hid _ _ Hp) in Hi. rewrite (Hid _ _ Hq) in Hj.
  rewrite <- Hj in Hi. injection Hi. lia.
Qed.

(** X5.  Rows are never deleted or rewritten: through any further
    trades, a row of a ledger reached from a fresh database stays at its
    place with the same id, market, token, side, amount, entry price,
    opening time and outcome; a row that is closed stays exactly as it
    is, with its [closed_at]. *)
Theorem rows_persist config before steps i p :
  let L := (Main.run config before Db.init_db).2 in
  Db.positions L !! i = Some p ->
  exists p',
    Db.positions (Main.run config steps L).2 !! i = Some p'
    /\ Resume.same_row p p'
    /\ (closed_at p <> None -> p' = p).
Proof.
  cbn zeta. intros Hp.
  apply run_row; [| exact Hp].
  apply run_numbered, numbered_init.
Qed.

Lemma rows_persist_witness :
  exists p',
    Db.positions
      (Main.run Samples.config
         [(Samples.trade "b" SELL 2, Samples.placed 200)]
         (Main.run Samples.config [(Samples.trade "a" BUY 1,
                                    Samples.placed 100)] Db.init_db).2).2
      !! 0%nat = Some p'
    /\ amount p' = 20%float.
Proof.
  destruct (Db.positions
              (Main.run Samples.config [(Samples.trade "a" BUY 1,
                 Samples.placed 100)] Db.init_db).2 !! 0%nat)
    as [p |] eqn:Hp; [| vm_compute in Hp; discriminate].
  destruct (rows_persist Samples.config
              [(Samples.trade "a" BUY 1, Samples.placed 100)]
              [(Samples.trade "b" SELL 2, Samples.placed 200)] 0 p Hp)
    as (p' & Hp' & Hsame & _).
  exists p'. split; [exact Hp' |].
  destruct Hsame as (_ & _ & _ & _ & -> & _).
  vm_compute in Hp. now injection Hp as <-.
Defined.

(** ** Copying a SELL and a BUY *)

Section Copies.

Import Db PositionManager Main Resume.

Lemma sell_is_not_buy (trade : Trade) :
  is_sell trade = true -> is_buy trade = false.
Proof. unfold is_sell, is_buy. now destruct (side trade). Qed.

Lemma unmarked_lookup L tid :
  Db.is_trade_processed L tid = false -> processed_trades L !! tid = None.
Proof.
  unfold Db.is_trade_processed. intros H.
  apply bool_decide_eq_false in H.
  destruct (processed_trades L !! tid); [| done]. destruct H. eauto.
Qed.

Lemma filter_insert_closed {A} (f : A -> bool) (l : list A) : forall j x y,
  l !! j = Some x -> f x = true -> f y = false ->
  (length (List.filter f (<[j := y]> l)) + 1
   = length (List.filter f l))%nat.
Proof.
  induction l as [| z l IH]; intros j x y Hj Hx Hy; [inversion Hj |].
  destruct j as [| j]; simpl in *.
  - injection Hj as ->. rewrite Hx, Hy. simpl. lia.
  - specialize (IH j x y Hj Hx Hy). destruct (f z); simpl; lia.
Qed.

Lemma close_row_closed token now q :
  open_on token (close_row now (id q) q) = false.
Proof.
  unfold close_row. rewrite bool_decide_eq_true_2 by done.
  unfold open_on, is_open. cbn. apply andb_false_r.
Qed.

Lemma process_trade_growth config env trade L :
  (length (positions L)
   <= length (positions (process_trade config env trade L).2)
   <= length (positions L)
      + length (List.filter is_buy_call
                  (map (pair (trade_id trade))
                     (process_trade config env trade L).1)))%nat.
Proof.
  unfold process_trade, iteration, PositionManager.is_trade_processed,
    mark_processed, get_position, record_exit.
  destruct (Db.is_trade_processed L (trade_id trade)); [cbn; lia |].
  destruct (is_buy trade).
  - destruct (truthy (order_id env)); cbn; [| lia].
    destruct (record_entry trade (Config.trade_amount config) (price trade)
                (now1 env) (now2 env) L) as [r |] eqn:E; cbn; [| lia].
    apply record_entry_Some in E as (_ & _ & _ & row & _ & ->). cbn.
    rewrite length_app. cbn. lia.
  - destruct (is_sell trade); [| cbn; lia].
    destruct (get_position_by_token L (token_id trade)); [| cbn; lia].
    destruct (truthy (order_id env)); cbn; rewrite ?length_map; lia.
Qed.





End Copies.

(** X6.  In a ledger reached from a fresh database, copying a SELL sends
    one sell order, for the amount of the first open position on the
    token, and closes that row and no other: the table afterwards is the
    table before with that one row stamped [closed_at], so the token has
    one open position fewer. *)
Theorem copied_sell_closes_one_row config before env trade :
  let L := (Main.run config before Db.init_db).2 in
  Db.is_trade_processed L (trade_id trade) = false ->
  is_sell trade = true ->
  Main.truthy (Main.order_id env) = true ->
  PositionManager.has_position L (token_id trade) = true ->
  exists j q,
    Db.positions L !! j = Some q
    /\ p_token_id q = token_id trade /\ closed_at q = None
    /\ (forall k y, (k < j)%nat -> Db.positions L !! k = Some y ->
                    Db.open_on (token_id trade) y = false)
    /\ (Main.process_trade config env trade L).1
       = [Main.sell (token_id trade) (amount q)]
    /\ Db.positions (Main.process_trade config env trade L).2
       = <[j := Db.close_row (Main.now1 env) (id q) q]> (Db.positions L)
    /\ closed_at (Db.close_row (Main.now1 env) (id q) q)
       = Some (Main.now1 env)
    /\ (Main.open_count (token_id trade)
          (Main.process_trade config env trade L).2 + 1
        = Main.open_count (token_id trade) L)%nat.
Proof.
  cbn zeta. intros Hp Hs Ht Hh.
  set (L := (Main.run config before Db.init_db).2) in *.
  assert (Hn : Resume.numbered L) by apply run_numbered, numbered_init.
  unfold PositionManager.has_position in Hh.
  destruct (Db.get_position_by_token L (token_id trade)) as [q |] eqn:Hq;
    [| discriminate].
  destruct (find_Some_lookup _ _ _ Hq) as (j & Hj & Hopen & Hbefore).
  assert (Hstep : Main.process_trade config env trade L
                  = ([Main.sell (token_id trade) (amount q)],
                     Db.mark_trade_processed (Main.now2 env) (trade_id trade)
                       (Db.close_position (Main.now1 env) (id q) L))).
  { unfold Main.process_trade, Main.iteration,
      PositionManager.is_trade_processed,
      PositionManager.get_position, PositionManager.record_exit.
    now rewrite Hp, (sell_is_not_buy _ Hs), Hs, Hq, Ht. }
  assert (Hrows : Db.positions (Main.process_trade config env trade L).2
                  = <[j := Db.close_row (Main.now1 env) (id q) q]>
                      (Db.positions L)).
  { rewrite Hstep. now apply close_position_one_row. }
  exists j, q.
  pose proof Hopen as Hopen'. unfold Db.open_on, is_open in Hopen'.
  apply andb_prop in Hopen' as [Htok Hcl]. apply bool_decide_eq_true in Htok.
  split; [exact Hj |]. split; [exact Htok |].
  split; [now destruct (closed_at q) |].
  split; [exact Hbefore |].
  split; [now rewrite Hstep |].
  split; [exact Hrows |].
  split; [unfold Db.close_row; now rewrite bool_decide_eq_true_2 |].
  unfold Main.open_count. rewrite Hrows.
  apply (filter_insert_closed _ _ j q); [exact Hj | exact Hopen |].
  apply close_row_closed.
Qed.

Lemma copied_sell_closes_one_row_witness :
  exists j q,
    Db.positions Samples.holding !! j = Some q
    /\ (Main.process_trade Samples.config (Samples.placed 200)
          (Samples.trade "b" SELL 2) Samples.holding).1
       = [Main.sell "T1" (amount q)].
Proof.
  destruct (copied_sell_closes_one_row Samples.config
              [(Samples.trade "a" BUY 1, Samples.placed 100)]
              (Samples.placed 200) (Samples.trade "b" SELL 2)
              eq_refl eq_refl eq_refl eq_refl)
    as (j & q & Hj & _ & _ & _ & Hcalls & _).
  exists j, q. split; [exact Hj | exact Hcalls].
Defined.

(** X7.  Positions come from copied BUYs only and are never removed:
    over any sequence of trades the table does not shrink, and it grows
    by no more than the number of buy orders sent. *)
Theorem positions_grow_with_buys config steps : forall L,
  (length (Db.positions L)
   <= length (Db.positions (Main.run config steps L).2)
   <= length (Db.positions L)
      + length (List.filter Resume.is_buy_call
                  (Main.run config steps L).1))%nat.
Proof.
  induction steps as [| [trade env] rest IH]; intros L; [cbn; lia |].
  cbn [Main.run fst snd].
  rewrite List.filter_app, length_app.
  pose proof (process_trade_growth config env trade L).
  specialize (IH (Main.process_trade config env trade L).2). lia.
Qed.



(** X9.  The orders the loop sends for a trade: a buy is sent for a BUY
    only, on the trade's token and for the configured amount; a sell is
    sent for a SELL only, on the trade's token, when the ledger holds an
    open position on it, and for the amount of the position
    [get_position] returns: the bot never sells what the ledger does not
    hold. *)
Theorem orders_follow_the_ledger config env trade L c :
  c ∈ (Main.process_trade config env trade L).1 ->
  Db.is_trade_processed L (trade_id trade) = false
  /\ match c with
     | Main.buy token usd =>
         side trade = BUY /\ token = token_id trade
         /\ usd = Config.trade_amount config
     | Main.sell token shares =>
         side trade = SELL /\ token = token_id trade
         /\ exists q, PositionManager.get_position L token = Some q
                      /\ q ∈ Db.positions L
                      /\ p_token_id q = token /\ closed_at q = None
                      /\ amount q = shares
     end.
Proof.
  unfold Main.process_trade, Main.iteration,
    PositionManager.is_trade_processed, PositionManager.get_position.
  destruct (Db.is_trade_processed L (trade_id trade)); [intros H; inversion H |].
  intros H. split; [reflexivity |].
  destruct (is_buy trade) eqn:Hb.
  - assert (Hside : side trade = BUY)
      by (unfold is_buy in Hb; now destruct (side trade)).
    destruct (Main.truthy (Main.order_id env));
      apply list_elem_of_singleton in H as ->; done.
  - destruct (is_sell trade) eqn:Hs; [| inversion H].
    assert (Hside : side trade = SELL)
      by (unfold is_sell in Hs; now destruct (side trade)).
    destruct (Db.get_position_by_token L (token_id trade)) as [q |] eqn:Hq;
      [| inversion H].
    assert (Hc : c = Main.sell (token_id trade) (amount q)).
    { destruct (Main.truthy (Main.order_id env));
        now apply list_elem_of_singleton in H. }
    subst c. split; [exact Hside |]. split; [reflexivity |].
    exists q. split; [exact Hq |].
    destruct (find_Some_lookup _ _ _ Hq) as (j & Hj & Hopen & _).
    unfold Db.open_on, is_open in Hopen.
    apply andb_prop in Hopen as [Htok Hcl].
    apply bool_decide_eq_true in Htok.
    split; [apply list_elem_of_lookup; eauto |].
    split; [exact Htok |]. split; [now destruct (closed_at q) | reflexivity].
Qed.

Lemma orders_follow_the_ledger_witness :
  exists q, PositionManager.get_position Samples.holding "T1" = Some q
            /\ amount q = 20%float.
Proof.
  destruct (orders_follow_the_ledger Samples.config (Samples.failed 300)
              (Samples.trade "b" SELL 2) Samples.holding
              (Main.sell "T1" 20))
    as (_ & _ & _ & q & Hq & _ & _ & _ & Hamt).
  - left.
  - exists q. split; [exact Hq | exact Hamt].
Defined.

(** X10.  The three queries of the position manager agree:
    [get_position] returns the first of the open positions
    ([get_all_open_positions]) that is on the token, and [has_position]
    tells whether there is one. *)
Theorem position_queries_agree L token :
  PositionManager.get_position L token
  = head (List.filter (fun p => bool_decide (p_token_id p = token))
            (PositionManager.get_all_open_positions L))
  /\ (PositionManager.has_position L token = true
      <-> exists p, p ∈ PositionManager.get_all_open_positions L
                    /\ p_token_id p = token).
Proof.
  unfold PositionManager.get_position, PositionManager.has_position,
    PositionManager.get_all_open_positions, Db.get_position_by_token,
    Db.get_open_positions.
  assert (Hhead : find (Db.open_on token) (Db.positions L)
                  = head (List.filter
                            (fun p => bool_decide (p_token_id p = token))
                            (List.filter is_open (Db.positions L)))).
  { induction (Db.positions L) as [| p rows IH]; [done |].
    cbn. unfold Db.open_on at 1.
    destruct (is_open p) eqn:Ho; cbn.
    - destruct (bool_decide (p_token_id p = token)); cbn; [done | exact IH].
    - rewrite andb_false_r. exact IH. }
  split; [exact Hhead |].
  rewrite Hhead.
  destruct (List.filter _ (List.filter is_open (Db.positions L)))
    as [| p rest] eqn:E; cbn.
  - split; [discriminate |]. intros (p & Hp & Ht).
    assert (Hin : In p (List.filter
                          (fun p => bool_decide (p_token_id p = token))
                          (List.filter is_open (Db.positions L)))).
    { apply filter_In. split; [now apply list_elem_of_In |].
      now apply bool_decide_eq_true. }
    rewrite E in Hin. destruct Hin.
  - split; [intros _ | done]. exists p.
    assert (Hin : In p (List.filter
                          (fun p => bool_decide (p_token_id p = token))
                          (List.filter is_open (Db.positions L))))
      by (rewrite E; now left).
    apply filter_In in Hin as [Hin Ht]. apply bool_decide_eq_true in Ht.
    split; [now apply list_elem_of_In | exact Ht].
Qed.


(** ** Start-up and poll cycle *)

Section ResumeFacts.

Import Db Main Resume Tracker.

Lemma later_marker_facts best row :
  exists b, later_marker best row = Some b
    /\ (row.2 <= processed_at b)%Z
    /\ (forall b0, best = Some b0 -> (processed_at b0 <= processed_at b)%Z)
    /\ (best = Some b \/ (pt_trade_id b, processed_at b) = row).
Proof.
  unfold later_marker. destruct best as [b0 |].
  - destruct (processed_at b0 <? row.2)%Z eqn:E; eexists;
      (split; [reflexivity |]); cbn.
    + apply Z.ltb_lt in E. split; [lia |].
      split; [intros ? [= <-]; lia |]. right. now destruct row.
    + apply Z.ltb_ge in E. split; [lia |].
      split; [intros ? [= <-]; lia |]. now left.
  - eexists. split; [reflexivity |]. cbn. split; [lia |].
    split; [discriminate |]. right. now destruct row.
Qed.

Lemma fold_later_marker_Some rows : forall b,
  exists r, fold_left later_marker rows (Some b) = Some r
    /\ (r = b \/ (pt_trade_id r, processed_at r) ∈ rows)
    /\ (processed_at b <= processed_at r)%Z
    /\ (forall row, row ∈ rows -> (row.2 <= processed_at r)%Z).
Proof.
  induction rows as [| row rows IH]; intros b; cbn [fold_left].
  - exists b. split; [done |]. split; [now left |]. split; [lia |].
    intros row H. inversion H.
  - destruct (later_marker_facts (Some b) row)
      as (b1 & -> & Hrow & Hold & Horigin).
    destruct (IH b1) as (r & -> & Hfrom & Hle & Hrows).
    specialize (Hold b eq_refl).
    exists r. split; [done |]. split; [| split; [lia |]].
    + destruct Hfrom as [-> | Hin]; [| right; now right].
      destruct Horigin as [[= ->] | <-]; [now left | right; left].
    + intros row' Hin. apply elem_of_cons in Hin as [-> | Hin];
        [unfold datetime in *; lia | now apply Hrows].
Qed.

Lemma latest_marker_facts L :
  (get_last_processed_trade L = None <-> processed_trades L = ∅)
  /\ forall lp,
       get_last_processed_trade L = Some lp ->
       processed_trades L !! pt_trade_id lp = Some (processed_at lp)
       /\ forall tid t, processed_trades L !! tid = Some t ->
                        (t <= processed_at lp)%Z.
Proof.
  unfold get_last_processed_trade.
  destruct (map_to_list (processed_trades L)) as [| row rows] eqn:E.
  - apply map_to_list_empty_iff in E. cbn. split; [done | discriminate].
  - assert (Hne : processed_trades L <> ∅).
    { intros He. rewrite He, map_to_list_empty in E. discriminate. }
    cbn [fold_left].
    destruct (later_marker_facts None row)
      as (b1 & -> & Hrow & _ & [Hbad | Horigin]); [discriminate |].
    destruct (fold_later_marker_Some rows b1)
      as (r & -> & Hfrom & Hle & Hrows).
    split; [split; [discriminate | done] |].
    intros lp [= <-]. split.
    + apply (elem_of_map_to_list (processed_trades L)).
      unfold datetime in *. rewrite E.
      destruct Hfrom as [-> | Hin]; [rewrite Horigin; left | now right].
    + intros tid t Ht.
      apply (elem_of_map_to_list (processed_trades L) tid t) in Ht.
      unfold datetime in *. rewrite E in Ht.
      apply elem_of_cons in Ht as [<- | Hin];
        [unfold datetime in *; cbn in *; lia |].
      apply (Hrows (tid, t) Hin).
Qed.



Lemma cold_poll_emits_nothing self fetched :
  last_seen_timestamp self = None -> (get_new_trades self fetched).1 = [].
Proof.
  intros H. destruct (get_new_trades_forward self fetched) as [_ Hnew].
  destruct (get_new_trades self fetched).1 as [| t rest]; [done |].
  destruct (Hnew t) as (last & Hl & _); [left |]. congruence.
Qed.

Lemma get_new_trades_sorted self fetched :
  Sorted older_or_same (get_new_trades self fetched).1.
Proof.
  destruct fetched as [trades |]; [| constructor].
  destruct (last_seen_timestamp self) as [last |] eqn:H.
  - destruct (all_of_kind last trades) eqn:Hk.
    + destruct (steady_call self last trades H Hk)
        as [[_ ->] | (_ & m & _ & ->)]; cbn [fst]; [constructor |].
      apply (stable_sort_sorted last). now apply all_of_kind_filter.
    + rewrite (steady_mixed self last trades H Hk). constructor.
  - rewrite (cold_poll_emits_nothing self (Some trades) H). constructor.
Qed.

(** The first poll after a start-up that seeded the watermark. *)
Lemma seeded_poll tracker w trades :
  let seeded := set_last_seen tracker (naive w) in
  (all_of_kind (naive w) trades = true ->
   (get_new_trades seeded (Some trades)).1
   = stable_sort (List.filter (newer_than (naive w)) trades))
  /\ (all_of_kind (naive w) trades = false ->
      get_new_trades seeded (Some trades) = ([], seeded)).
Proof.
  cbn zeta. split; intros Hk.
  - destruct (steady_call (set_last_seen tracker (naive w)) (naive w) trades
                eq_refl Hk) as [[-> ->] | (_ & m & _ & ->)]; reflexivity.
  - now apply (steady_mixed _ (naive w)).
Qed.

End ResumeFacts.

(** X12.  [get_last_processed_trade] returns nothing exactly when no
    trade is marked; otherwise it returns a marker of the table whose
    [processed_at] no other marker exceeds. *)
Theorem latest_marker L :
  (Resume.get_last_processed_trade L = None
   <-> Db.processed_trades L = ∅)
  /\ forall lp,
       Resume.get_last_processed_trade L = Some lp ->
       Db.processed_trades L !! pt_trade_id lp = Some (processed_at lp)
       /\ forall tid t, Db.processed_trades L !! tid = Some t ->
                        (t <= processed_at lp)%Z.
Proof. apply latest_marker_facts. Qed.

(** X13.  The start-up on a database without markers leaves the tracker
    as it is (so in cold start); on a database with markers it sets the
    watermark to the latest [processed_at], read back as a naive moment.
    The first poll is then no cold start.  On a page whose timestamps
    are all naive it emits the trades stamped after that time, oldest
    first.  On a page with an offset-aware timestamp (a text with an
    offset, such as one ending in Z) the comparison with the naive
    watermark raises: the poll emits nothing and the tracker stays as
    the start-up left it. *)
Theorem resume_seeds_watermark L tracker :
  (Db.processed_trades L = ∅ -> Resume.resume L tracker = tracker)
  /\ (Db.processed_trades L <> ∅ ->
      exists w,
        Tracker.last_seen_timestamp (Resume.resume L tracker)
        = Some (naive w)
        /\ (exists tid, Db.processed_trades L !! tid = Some w)
        /\ (forall tid t, Db.processed_trades L !! tid = Some t -> (t <= w)%Z)
        /\ forall trades,
             (Tracker.all_of_kind (naive w) trades = true ->
              (Tracker.get_new_trades (Resume.resume L tracker)
                 (Some trades)).1
              = Tracker.stable_sort
                  (List.filter (Tracker.newer_than (naive w)) trades))
             /\ (Tracker.all_of_kind (naive w) trades = false ->
                 Tracker.get_new_trades (Resume.resume L tracker)
                   (Some trades)
                 = ([], Resume.resume L tracker))).
Proof.
  destruct (latest_marker_facts L) as [Hnone Hsome].
  unfold Resume.resume. split.
  - intros He. apply Hnone in He. now rewrite He.
  - intros Hne.
    destruct (Resume.get_last_processed_trade L) as [lp |] eqn:E;
      [| now destruct Hne; apply Hnone].
    destruct (Hsome lp eq_refl) as [Hrow Hmax].
    exists (processed_at lp). split; [reflexivity |].
    split; [eauto |]. split; [exact Hmax |].
    intros trades. apply seeded_poll.
Qed.

(** After the copy of trade a at 101 the start-up seeds the watermark
    with the naive moment 101; a page of naive timestamps gives the
    trade stamped after it, a page dated with offsets gives nothing. *)
Lemma resume_seeds_watermark_witness :
  Db.processed_trades Samples.holding <> ∅
  /\ Tracker.last_seen_timestamp
       (Resume.resume Samples.holding (Samples.tracker None))
     = Some (naive 101)
  /\ (Tracker.get_new_trades
        (Resume.resume Samples.holding (Samples.tracker None))
        (Some [Samples.undated "c" SELL 300; Samples.undated "b" BUY 50])).1
     = [Samples.undated "c" SELL 300]
  /\ Tracker.get_new_trades
       (Resume.resume Samples.holding (Samples.tracker None))
       (Some [Samples.trade "c" SELL 300])
     = ([], Resume.resume Samples.holding (Samples.tracker None)).
Proof.
  assert (Hne : Db.processed_trades Samples.holding <> ∅).
  { intros He.
    assert (H : Db.processed_trades Samples.holding !! "a" = Some 101%Z)
      by reflexivity.
    rewrite He in H. discriminate. }
  split; [exact Hne |].
  destruct (proj2 (resume_seeds_watermark Samples.holding
                     (Samples.tracker None)) Hne)
    as (w & Hw & _ & _ & Hpoll).
  assert (Hw' : Tracker.last_seen_timestamp
                  (Resume.resume Samples.holding (Samples.tracker None))
                = Some (naive 101)) by reflexivity.
  assert (E : w = 101%Z) by (rewrite Hw in Hw'; now injection Hw').
  subst w. split; [exact Hw' |]. split.
  - now rewrite (proj1 (Hpoll [Samples.undated "c" SELL 300;
                                 Samples.undated "b" BUY 50]) eq_refl).
  - apply (proj2 (Hpoll [Samples.trade "c" SELL 300]) eq_refl).
Defined.

(** X14.  A poll cycle on a tracker in cold start sends no order and
    leaves the ledger untouched, whatever the feed delivers. *)
Theorem cold_cycle_copies_nothing config fetched oracle tracker L :
  Tracker.last_seen_timestamp tracker = None ->
  let r := Resume.cycle config fetched oracle (tracker, L) in
  r.1 = [] /\ r.2.2 = L.
Proof.
  intros H. cbn zeta. unfold Resume.cycle. cbn [fst snd].
  now rewrite (cold_poll_emits_nothing tracker fetched H).
Qed.

Lemma cold_cycle_copies_nothing_witness :
  (Resume.cycle Samples.config
     (Some [Samples.trade "a" BUY 1; Samples.trade "b" SELL 2])
     (fun _ => Samples.placed 100)
     (Samples.tracker None, Db.init_db)).1 = [].
Proof.
  apply (cold_cycle_copies_nothing Samples.config _ _
           (Samples.tracker None) Db.init_db eq_refl).
Defined.


(** ** The feed: records, batches, polls *)

Section FeedFacts.

Import Tracker Feed.

Variable upper : string -> string.
Variable fromisoformat : string -> res moment.
Variable py_float : json -> res float.
Variable py_str : json -> string.

Lemma fetch_loop_quiet data : forall acc,
  (forall r, r ∈ data -> quiet upper fromisoformat py_float py_str r) ->
  fetch_loop upper fromisoformat py_float py_str data acc = Ret (acc ++ omap (contribution upper fromisoformat py_float py_str) data).
Proof.
  induction data as [| [item now] rest IH]; intros acc Hq; cbn.
  - now rewrite app_nil_r.
  - assert (Hrest : forall r, r ∈ rest -> quiet upper fromisoformat py_float py_str r)
      by (intros r Hr; apply Hq; now right).
    unfold contribution. cbn [fst snd].
    destruct (is_trade_record item) eqn:Ht; cbn; [| now apply IH].
    destruct (_parse_trade upper fromisoformat py_float py_str item now) as [[t |] | e] eqn:Hp; cbn.
    + rewrite (IH _ Hrest). now rewrite <- app_assoc.
    + now apply IH.
    + exfalso. apply (Hq (item, now) ltac:(left) e). now split.
Qed.

Lemma fetch_loop_escape l1 : forall acc x l2 e,
  (forall r, r ∈ l1 -> quiet upper fromisoformat py_float py_str r) ->
  escapes upper fromisoformat py_float py_str e x ->
  fetch_loop upper fromisoformat py_float py_str (l1 ++ x :: l2) acc = Raise e.
Proof.
  induction l1 as [| [item now] rest IH]; intros acc x l2 e Hq [Ht Hp].
  - destruct x as [item now]. cbn in *. now rewrite Ht, Hp.
  - assert (Hrest : forall r, r ∈ rest -> quiet upper fromisoformat py_float py_str r)
      by (intros r Hr; apply Hq; now right).
    cbn. destruct (is_trade_record item) eqn:Hi; cbn;
      [| now apply IH].
    destruct (_parse_trade upper fromisoformat py_float py_str item now) as [[t |] | e'] eqn:Hp'; cbn.
    + now apply IH.
    + now apply IH.
    + exfalso. apply (Hq (item, now) ltac:(left) e'). now split.
Qed.

Lemma fetch_loop_filter data : forall acc,
  fetch_loop upper fromisoformat py_float py_str data acc
  = fetch_loop upper fromisoformat py_float py_str (List.filter (fun r => is_trade_record r.1) data) acc.
Proof.
  induction data as [| [item now] rest IH]; intros acc; cbn; [done |].
  destruct (is_trade_record item) eqn:Ht; cbn; [| apply IH].
  rewrite Ht. cbn.
  destruct (_parse_trade upper fromisoformat py_float py_str item now) as [[t |] | e]; cbn; [apply IH | apply IH | done].
Qed.

(** The expression that becomes the timestamp of the trade. *)
Lemma parse_timestamp item now t :
  _parse_trade upper fromisoformat py_float py_str item now = Ret (Some t) ->
  (if json_truthy (py_or (get item "timestamp") (get item "createdAt"))
   then s ← str_method replace_Z
              (py_or (get item "timestamp") (get item "createdAt"));
        fromisoformat s
   else Ret (naive now)) = Ret (timestamp t).
Proof.
  unfold _parse_trade, parse_body.
  destruct (if json_truthy _ then _ else _) as [ts | e]; cbn;
    [| destruct (caught e); discriminate].
  destruct (str_method upper _) as [sd | e]; cbn;
    [| destruct (caught e); discriminate].
  destruct (py_float (get_or item "size" (JInt 0))) as [sz | e]; cbn;
    [| destruct (caught e); discriminate].
  destruct (py_float (get_or item "price" (JInt 0))) as [pr | e]; cbn;
    [| destruct (caught e); discriminate].
  now intros [= <-].
Qed.

(** X16.  Records whose type is not the string TRADE play no part in a
    batch: [_fetch_activity] gives the same result, trades or exception,
    with them removed. *)
Theorem other_activity_is_ignored data :
  _fetch_activity upper fromisoformat py_float py_str data
  = _fetch_activity upper fromisoformat py_float py_str
      (List.filter (fun r => is_trade_record r.1) data).
Proof. apply fetch_loop_filter. Qed.

(** X17.  When no record of the batch makes the parser raise,
    [_fetch_activity] returns the trades of the TRADE records in the
    order of the feed, a record the parser drops leaving no gap for the
    others. *)
Theorem batch_keeps_feed_order data :
  (forall r, r ∈ data -> quiet upper fromisoformat py_float py_str r) ->
  _fetch_activity upper fromisoformat py_float py_str data
  = Ret (omap (contribution upper fromisoformat py_float py_str) data).
Proof. intros H. apply (fetch_loop_quiet data [] H). Qed.

(** X18.  One TRADE record on which the parser raises an exception it
    does not catch makes [_fetch_activity] raise it: the trades parsed
    before it and the records after it are lost with it. *)
Theorem one_raising_record_loses_the_batch before x after e :
  (forall r, r ∈ before -> quiet upper fromisoformat py_float py_str r) ->
  escapes upper fromisoformat py_float py_str e x ->
  _fetch_activity upper fromisoformat py_float py_str (before ++ x :: after)
  = Raise e.
Proof. intros Hq Hx. now apply fetch_loop_escape. Qed.

(** X19.  A timestamp that is true in Python's sense and is not a string
    (a number of seconds, say) has no [replace]: the parser raises
    AttributeError, which it does not catch, whatever the other fields
    are. *)
Theorem non_string_timestamp_raises item now v :
  item !! "timestamp" = Some v ->
  json_truthy v = true ->
  (forall s, v <> JStr s) ->
  _parse_trade upper fromisoformat py_float py_str item now = Raise AttributeError.
Proof.
  intros Hv Ht Hs.
  assert (Hg : get item "timestamp" = v) by (unfold get; now rewrite Hv).
  unfold _parse_trade, parse_body, py_or. rewrite Hg, Ht, Ht.
  destruct v; try reflexivity. now destruct (Hs s).
Qed.

(** X20.  A timestamp that is a non-empty string and that
    [fromisoformat] rejects with ValueError makes the parser drop the
    record (it returns None), whatever the other fields are. *)
Theorem malformed_timestamp_is_dropped item now s :
  item !! "timestamp" = Some (JStr s) ->
  s <> "" ->
  fromisoformat (replace_Z s) = Raise ValueError ->
  _parse_trade upper fromisoformat py_float py_str item now = Ret None.
Proof.
  intros Hv Hs Hf.
  assert (Hg : get item "timestamp" = JStr s)
    by (unfold get; now rewrite Hv).
  unfold _parse_trade, parse_body, py_or. rewrite Hg. cbn [json_truthy].
  apply String.eqb_neq in Hs. rewrite Hs. cbn. rewrite Hs. cbn.
  rewrite Hf. reflexivity.
Qed.

(** X21.  Where the timestamp of a parsed trade comes from: the field
    [timestamp] when it is true in Python's sense, else the field
    [createdAt] when that one is, in both cases a string decoded by
    [fromisoformat] after every Z is replaced by +00:00; else the local
    clock, [datetime.utcnow()], whose reading is a naive moment. *)
Theorem timestamp_source item now t :
  _parse_trade upper fromisoformat py_float py_str item now = Ret (Some t) ->
  (json_truthy (get item "timestamp") = true ->
   exists s, get item "timestamp" = JStr s
             /\ fromisoformat (replace_Z s) = Ret (timestamp t))
  /\ (json_truthy (get item "timestamp") = false ->
      json_truthy (get item "createdAt") = true ->
      exists s, get item "createdAt" = JStr s
                /\ fromisoformat (replace_Z s) = Ret (timestamp t))
  /\ (json_truthy (get item "timestamp") = false ->
      json_truthy (get item "createdAt") = false ->
      timestamp t = naive now).
Proof.
  intros Hp. apply parse_timestamp in Hp. unfold py_or in Hp.
  split; [| split].
  - intros Ht. rewrite Ht, Ht in Hp.
    destruct (get item "timestamp"); try discriminate. eauto.
  - intros Ht Hc. rewrite Ht, Hc in Hp.
    destruct (get item "createdAt"); try discriminate. eauto.
  - intros Ht Hc. rewrite Ht, Hc in Hp. now injection Hp.
Qed.

End FeedFacts.

Lemma batch_keeps_feed_order_witness :
  exists t,
    Feed._fetch_activity Samples.upper Samples.fromisoformat
      Samples.py_float Samples.py_str
      [(FeedSamples.plain_record, 5%Z); (FeedSamples.reward_record, 6%Z);
       (FeedSamples.undated_record, 7%Z)]
    = Tracker.Ret [t]
    /\ timestamp t = naive 5.
Proof.
  rewrite (batch_keeps_feed_order Samples.upper Samples.fromisoformat
             Samples.py_float Samples.py_str).
  - eexists. split; reflexivity.
  - intros r Hr e [_ Hp].
    repeat (apply elem_of_cons in Hr as [-> | Hr]);
      [vm_compute in Hp; discriminate .. | inversion Hr].
Defined.

Lemma one_raising_record_loses_the_batch_witness :
  Feed._fetch_activity Samples.upper Samples.fromisoformat
    Samples.py_float Samples.py_str
    ([(FeedSamples.plain_record, 5%Z)]
     ++ (FeedSamples.epoch_record, 6%Z)
     :: [(FeedSamples.plain_record, 7%Z)])
  = Tracker.Raise Tracker.AttributeError.
Proof.
  apply (one_raising_record_loses_the_batch Samples.upper
           Samples.fromisoformat Samples.py_float Samples.py_str).
  - intros r Hr e [_ Hp].
    apply elem_of_cons in Hr as [-> | Hr]; [| inversion Hr].
    vm_compute in Hp. discriminate.
  - split; reflexivity.
Defined.

Lemma non_string_timestamp_raises_witness :
  Tracker._parse_trade Samples.upper Samples.fromisoformat
    Samples.py_float Samples.py_str FeedSamples.epoch_record 6%Z
  = Tracker.Raise Tracker.AttributeError.
Proof.
  apply (non_string_timestamp_raises Samples.upper Samples.fromisoformat
           Samples.py_float Samples.py_str FeedSamples.epoch_record 6%Z
           (Tracker.JInt 1700000000));
    [reflexivity | reflexivity | discriminate].
Defined.

Lemma malformed_timestamp_is_dropped_witness :
  Tracker._parse_trade Samples.upper Samples.fromisoformat
    Samples.py_float Samples.py_str FeedSamples.undated_record 7%Z
  = Tracker.Ret None.
Proof.
  apply (malformed_timestamp_is_dropped Samples.upper Samples.fromisoformat
           Samples.py_float Samples.py_str FeedSamples.undated_record 7%Z
           "yesterday");
    [reflexivity | discriminate | reflexivity].
Defined.

Lemma timestamp_source_witness :
  exists t,
    Tracker._parse_trade Samples.upper Samples.fromisoformat
      Samples.py_float Samples.py_str FeedSamples.plain_record 5%Z
    = Tracker.Ret (Some t)
    /\ timestamp t = naive 5.
Proof.
  eexists. split; [reflexivity |].
  apply (timestamp_source Samples.upper Samples.fromisoformat
           Samples.py_float Samples.py_str FeedSamples.plain_record 5%Z);
    reflexivity.
Defined.

(** ** Polls *)

Section Polls.

Import Tracker.

Lemma no_newer_trade m (trades : list Trade) :
  (forall t, t ∈ trades -> (ticks (timestamp t) <= ticks m)%Z) ->
  List.filter (newer_than m) trades = [].
Proof.
  induction trades as [| t trades IH]; intros H; cbn; [done |].
  unfold newer_than at 1.
  destruct (ticks (timestamp t) >? ticks m)%Z eqn:E.
  - apply Z.gtb_gt in E. specialize (H t ltac:(left)). lia.
  - apply IH. intros u Hu. apply H. now right.
Qed.

(** A poll either emits nothing and leaves the tracker as it was, or
    leaves a watermark of the kind of the page that covers the whole
    page. *)
Lemma poll_covers_page self trades :
  get_new_trades self (Some trades) = ([], self)
  \/ exists m,
       last_seen_timestamp (get_new_trades self (Some trades)).2 = Some m
       /\ all_of_kind m trades = true
       /\ forall t, t ∈ trades -> (ticks (timestamp t) <= ticks m)%Z.
Proof.
  destruct (last_seen_timestamp self) as [last |] eqn:H.
  - destruct (all_of_kind last trades) eqn:Hk;
      [| left; now apply (steady_mixed self last)].
    destruct (steady_call self last trades H Hk)
      as [[_ ->] | (_ & m & [(u & Hu & Eu) Hmax] & ->)]; [now left |].
    right. exists m. split; [reflexivity |].
    apply elem_of_new_trades in Hu as [Hu Hlt].
    pose proof (proj1 (all_of_kind_elem last trades) Hk) as Hkind.
    split.
    + rewrite (all_of_kind_aware m last); [exact Hk |].
      rewrite <- Eu. now apply Hkind.
    + intros t Ht.
      destruct (Z_lt_le_dec (ticks last) (ticks (timestamp t)))
        as [Hnew | Hold].
      * apply Hmax. now apply elem_of_new_trades.
      * rewrite <- Eu. lia.
  - destruct trades as [| t rest]; [left; now apply cold_start_empty |].
    destruct (uniform (t :: rest)) eqn:Hu;
      [| left; now apply cold_start_mixed].
    destruct (cold_start_call self t rest H Hu) as (m & [_ Hmax] & ->).
    right. exists m. split; [reflexivity |]. split.
    + apply all_of_kind_elem. intros u Hin. now apply Hmax.
    + intros u Hin. now apply Hmax.
Qed.

Lemma emitted_below_watermark self fetched t :
  t ∈ (get_new_trades self fetched).1 ->
  exists m, last_seen_timestamp (get_new_trades self fetched).2 = Some m
            /\ aware (timestamp t) = aware m
            /\ (ticks (timestamp t) <= ticks m)%Z.
Proof.
  destruct fetched as [trades |]; [| intros H; inversion H].
  intros Hin.
  destruct (get_new_trades_forward self (Some trades)) as [_ Hnew].
  destruct (Hnew t Hin) as (last & Hl & _).
  destruct (all_of_kind last trades) eqn:Hk.
  - destruct (steady_call self last trades Hl Hk)
      as [[_ E] | (_ & m & [_ Hmax] & E)]; rewrite E in Hin |- *;
      cbn [fst snd] in *; [inversion Hin |].
    exists m. split; [reflexivity |]. now apply Hmax.
  - rewrite (steady_mixed self last trades Hl Hk) in Hin. inversion Hin.
Qed.

Lemma sorted_app_older (l1 l2 : list Trade) :
  Sorted older_or_same l1 -> Sorted older_or_same l2 ->
  (forall x y, x ∈ l1 -> y ∈ l2 -> older_or_same x y) ->
  Sorted older_or_same (l1 ++ l2).
Proof.
  intros H1 H2 H. induction H1 as [| x l1 Hl1 IH Hx]; cbn; [exact H2 |].
  constructor.
  - apply IH. intros a b Ha Hb. apply H; [now right | done].
  - destruct Hx as [| y l1' Hxy]; cbn.
    + destruct l2 as [| y l2]; constructor.
      apply H; left.
    + now constructor.
Qed.

End Polls.

(** X22.  Polling the same page again emits nothing and leaves the
    tracker as the first poll left it: whatever a page holds, after one
    poll its trades are all at or below the watermark (or the page was
    empty). *)
Theorem same_page_emits_nothing self trades :
  let after := (Tracker.get_new_trades self (Some trades)).2 in
  Tracker.get_new_trades after (Some trades) = ([], after).
Proof.
  cbn zeta.
  destruct (poll_covers_page self trades) as [E | (m & Hm & Hk & Hle)].
  - rewrite E. cbn [snd]. exact E.
  - destruct (steady_call _ m trades Hm Hk) as [[_ E] | (Hne & _)];
      [exact E |].
    now rewrite (no_newer_trade m trades Hle) in Hne.
Qed.

(** X23.  Over any sequence of polls, whatever they fetch, the trades
    come out in ascending order of timestamp across the polls too, every
    one of them of the kind of the watermark the sequence started from
    and stamped after it; a trade at or below the watermark, delivered
    late, is never emitted. *)
Theorem polls_emit_in_order fetches : forall self,
  Sorted Tracker.older_or_same
    (Tracker.calls (map Tracker.GetNewTrades fetches) self).1
  /\ forall w t,
       Tracker.last_seen_timestamp self = Some w ->
       t ∈ (Tracker.calls (map Tracker.GetNewTrades fetches) self).1 ->
       aware (timestamp t) = aware w
       /\ (ticks w < ticks (timestamp t))%Z.
Proof.
  intros self. split.
  - revert self. induction fetches as [| f fs IH]; intros self; cbn;
      [constructor |].
    apply sorted_app_older; [apply get_new_trades_sorted | apply IH |].
    intros x y Hx Hy.
    destruct (emitted_below_watermark self f x Hx) as (m & Hm & Hk & Hle).
    destruct (polls_emit_newer fs (Tracker.get_new_trades self f).2 m y)
      as [Hk' Hlt]; [rewrite Hm; apply wm_le_refl | exact Hy |].
    split; [congruence | lia].
  - intros w t Hw Ht.
    apply (polls_emit_newer fetches self);
      [rewrite Hw; apply wm_le_refl | exact Ht].
Qed.

(** ** The executor *)

Section FloatOrder.

Lemma SFcompare_antisym x y :
  SFcompare y x = option_map CompOpp (SFcompare x y).
Proof.
  destruct x as [sx | sx | | sx mx ex], y as [sy | sy | | sy my ey];
    try reflexivity;
    try (destruct sx; reflexivity); try (destruct sy; reflexivity);
    try (destruct sx, sy; reflexivity).
  unfold SFcompare, option_map. f_equal.
  rewrite !Pos.compare_cont_spec. unfold Pos.switch_Eq.
  rewrite (Z.compare_antisym ex ey), (Pos.compare_antisym mx my).
  destruct sx, sy; try reflexivity;
    destruct (ex ?= ey)%Z; try reflexivity;
    now destruct (mx ?= my)%positive.
Qed.

Lemma is_nan_spec (a : float) :
  is_nan a = false -> Prim2SF a <> S754_nan.
Proof.
  unfold is_nan. rewrite FloatAxioms.eqb_spec. intros H E. rewrite E in H.
  discriminate.
Qed.

(** Apart from NaN, floats are totally ordered. *)
Lemma not_ltb_leb (a b : float) :
  (b <? a)%float = false ->
  is_nan a = false -> is_nan b = false ->
  (a <=? b)%float = true.
Proof.
  intros Hlt Ha Hb. apply is_nan_spec in Ha, Hb.
  rewrite FloatAxioms.ltb_spec in Hlt. rewrite FloatAxioms.leb_spec.
  unfold SFltb in Hlt. unfold SFleb.
  rewrite (SFcompare_antisym (Prim2SF b) (Prim2SF a)).
  destruct (SFcompare (Prim2SF b) (Prim2SF a)) as [[] |] eqn:E; cbn;
    try reflexivity; try discriminate.
  exfalso.
  destruct (Prim2SF a) as [sa | sa | | sa ma ea],
           (Prim2SF b) as [sb | sb | | sb mb eb]; try done.
Qed.

End FloatOrder.

Section ExecutorFacts.

Import Tracker Executor.

Variable py_float : json -> res float.
Variable accepts : OrderArgs -> bool.

Lemma py_min_capped a :
  (py_min a buy_cap <=? buy_cap)%float = true
  \/ is_nan (py_min a buy_cap) = true.
Proof.
  unfold py_min. destruct (buy_cap <? a)%float eqn:E; [now left |].
  destruct (is_nan a) eqn:Ha; [now right |]. left.
  now apply not_ltb_leb.
Qed.

Lemma py_max_floored a :
  (sell_floor <=? py_max a sell_floor)%float = true
  \/ is_nan (py_max a sell_floor) = true.
Proof.
  unfold py_max. destruct (a <? sell_floor)%float eqn:E; [now left |].
  destruct (is_nan a) eqn:Ha; [now right |]. left.
  now apply not_ltb_leb.
Qed.

(** When the constructor raises, nothing reaches the venue and [None]
    is returned. *)
Lemma buy_refused client token amount :
  (forall args, accepts args = false) ->
  buy py_float accepts client token amount = ([], JNull).
Proof.
  intros H. unfold buy.
  destruct (_get_price py_float client token BUY) as [quote |]; [| done].
  destruct (_ =? 0)%float; [done |]. now rewrite H.
Qed.

Lemma sell_refused client token shares :
  (forall args, accepts args = false) ->
  sell py_float accepts client token shares = ([], JNull).
Proof.
  intros H. unfold sell.
  destruct (_get_price py_float client token SELL) as [quote |]; [| done].
  now rewrite H.
Qed.

(** X24.  [buy] hands an order to the venue only when the constructor
    [OrderArgs] returns on the keywords it is called with; when the
    constructor raises on every call (as one without a field
    [order_type] does), [buy] hands over nothing and returns None.
    Every order [buy] does hand over is a BUY on the token asked for,
    at the quoted price plus the slippage buffer but never above 0.99
    (the price is at most 0.99, or the quote was not a number), at a
    price that is not zero, and for [amount / price] shares; without a
    quote no order is handed over. *)
Theorem buy_orders_are_capped client token amount :
  ((forall args, accepts args = false) ->
   buy py_float accepts client token amount = ([], JNull))
  /\ forall args,
       args ∈ (buy py_float accepts client token amount).1 ->
       accepts args = true
       /\ oa_side args = "BUY"
       /\ oa_token_id args = token
       /\ (exists quote,
             _get_price py_float client token BUY = Some quote
             /\ oa_price args
                = py_min (quote + SLIPPAGE_BUFFER)%float buy_cap)
       /\ ((oa_price args <=? buy_cap)%float = true
           \/ is_nan (oa_price args) = true)
       /\ (oa_price args =? 0)%float = false
       /\ oa_size args = (amount / oa_price args)%float.
Proof.
  split; [apply buy_refused |].
  intros args. unfold buy.
  destruct (_get_price py_float client token BUY) as [quote |];
    [| intros H; inversion H].
  destruct (py_min (quote + SLIPPAGE_BUFFER) buy_cap =? 0)%float eqn:Hz;
    [intros H; inversion H |].
  destruct (accepts _) eqn:Hacc; [| intros H; inversion H].
  intros H.
  assert (Ha : args = {| oa_token_id := token;
                         oa_price := py_min (quote + SLIPPAGE_BUFFER) buy_cap;
                         oa_size := (amount
                                     / py_min (quote + SLIPPAGE_BUFFER)
                                         buy_cap)%float;
                         oa_side := "BUY" |}).
  { destruct (create_and_post_order client _);
      now apply list_elem_of_singleton in H. }
  subst args. cbn.
  split; [exact Hacc |]. split; [reflexivity |]. split; [reflexivity |].
  split; [eauto |]. split; [apply py_min_capped |]. now split.
Qed.

(** X25.  [sell] hands an order to the venue only when the constructor
    [OrderArgs] returns on the keywords it is called with; when the
    constructor raises on every call, [sell] hands over nothing and
    returns None.  Every order [sell] does hand over is a SELL on the
    token asked for, for exactly the shares asked for, at the quoted
    price less the slippage buffer but never below 0.01 (the price is at
    least 0.01, or the quote was not a number); without a quote no order
    is handed over. *)
Theorem sell_orders_are_floored client token shares :
  ((forall args, accepts args = false) ->
   sell py_float accepts client token shares = ([], JNull))
  /\ forall args,
       args ∈ (sell py_float accepts client token shares).1 ->
       accepts args = true
       /\ oa_side args = "SELL"
       /\ oa_token_id args = token
       /\ oa_size args = shares
       /\ (exists quote,
             _get_price py_float client token SELL = Some quote
             /\ oa_price args
                = py_max (quote - SLIPPAGE_BUFFER)%float sell_floor)
       /\ ((sell_floor <=? oa_price args)%float = true
           \/ is_nan (oa_price args) = true).
Proof.
  split; [apply sell_refused |].
  intros args. unfold sell.
  destruct (_get_price py_float client token SELL) as [quote |];
    [| intros H; inversion H].
  destruct (accepts _) eqn:Hacc; [| intros H; inversion H].
  intros H.
  assert (Ha : args = {| oa_token_id := token;
                         oa_price := py_max (quote - SLIPPAGE_BUFFER)
                                       sell_floor;
                         oa_size := shares;
                         oa_side := "SELL" |}).
  { destruct (create_and_post_order client _);
      now apply list_elem_of_singleton in H. }
  subst args. cbn.
  split; [exact Hacc |].
  split; [reflexivity |]. split; [reflexivity |]. split; [reflexivity |].
  split; [eauto |]. apply py_max_floored.
Qed.

(** X26.  [buy] and [sell] return a value that is true in Python's
    sense, so one the main loop takes for an order id, only when the
    constructor [OrderArgs] returned, exactly one order was handed to
    the venue, the venue answered, and the value is the [orderID] of the
    answer or else its [order_id].  With a constructor that raises on
    every call neither of them ever returns such a value: every copy
    the main loop attempts is a failed one. *)
Theorem order_id_means_order_placed client token x :
  (json_truthy (buy py_float accepts client token x).2 = true ->
   exists args response,
     (buy py_float accepts client token x).1 = [args]
     /\ accepts args = true
     /\ create_and_post_order client args = Some response
     /\ (buy py_float accepts client token x).2
        = py_or (get response "orderID") (get response "order_id"))
  /\ (json_truthy (sell py_float accepts client token x).2 = true ->
      exists args response,
        (sell py_float accepts client token x).1 = [args]
        /\ accepts args = true
        /\ create_and_post_order client args = Some response
        /\ (sell py_float accepts client token x).2
           = py_or (get response "orderID") (get response "order_id"))
  /\ ((forall args, accepts args = false) ->
      json_truthy (buy py_float accepts client token x).2 = false
      /\ json_truthy (sell py_float accepts client token x).2 = false).
Proof.
  split; [| split].
  - unfold buy.
    destruct (_get_price py_float client token BUY) as [quote |];
      [| discriminate].
    destruct (_ =? 0)%float; [discriminate |].
    destruct (accepts _) eqn:Hacc; [| discriminate].
    destruct (create_and_post_order client _) as [response |] eqn:E;
      [| discriminate].
    intros _. eauto 6.
  - unfold sell.
    destruct (_get_price py_float client token SELL) as [quote |];
      [| discriminate].
    destruct (accepts _) eqn:Hacc; [| discriminate].
    destruct (create_and_post_order client _) as [response |] eqn:E;
      [| discriminate].
    intros _. eauto 6.
  - intros H. now rewrite (buy_refused _ _ _ H), (sell_refused _ _ _ H).
Qed.

End ExecutorFacts.

(** With the constructor that raises, a buy of T1 for 10 USD reaches
    the venue with nothing; with one that takes the keyword, the quote
    of 1.0 gives an order at the cap. *)
Lemma buy_orders_are_capped_witness :
  Executor.buy Executor.sample_float Executor.strict_constructor
    Executor.sample_client "T1" 10
  = ([], Tracker.JNull)
  /\ exists args,
       (Executor.buy Executor.sample_float Executor.lenient_constructor
          Executor.sample_client "T1" 10).1
       = [args]
       /\ Executor.oa_price args = Executor.buy_cap.
Proof.
  split.
  - apply (proj1 (buy_orders_are_capped Executor.sample_float
                    Executor.strict_constructor Executor.sample_client
                    "T1" 10)).
    reflexivity.
  - eexists. split; [reflexivity |].
    destruct (proj2 (buy_orders_are_capped Executor.sample_float
                       Executor.lenient_constructor Executor.sample_client
                       "T1" 10) _
                ltac:(apply list_elem_of_singleton; reflexivity))
      as (_ & _ & _ & (quote & Hq & ->) & _).
    injection Hq as <-. reflexivity.
Defined.

Lemma sell_orders_are_floored_witness :
  Executor.sell Executor.sample_float Executor.strict_constructor
    Executor.sample_client "T1" 20
  = ([], Tracker.JNull)
  /\ exists args,
       (Executor.sell Executor.sample_float Executor.lenient_constructor
          Executor.sample_client "T1" 20).1
       = [args]
       /\ Executor.oa_size args = 20%float.
Proof.
  split.
  - apply (proj1 (sell_orders_are_floored Executor.sample_float
                    Executor.strict_constructor Executor.sample_client
                    "T1" 20)).
    reflexivity.
  - eexists. split; [reflexivity |].
    apply (proj2 (sell_orders_are_floored Executor.sample_float
                    Executor.lenient_constructor Executor.sample_client
                    "T1" 20)).
    apply list_elem_of_singleton. reflexivity.
Defined.

Lemma order_id_means_order_placed_witness :
  (Tracker.json_truthy
     (Executor.buy Executor.sample_float Executor.strict_constructor
        Executor.sample_client "T1" 10).2 = false
   /\ Tracker.json_truthy
        (Executor.sell Executor.sample_float Executor.strict_constructor
           Executor.sample_client "T1" 10).2 = false)
  /\ exists args,
       (Executor.buy Executor.sample_float Executor.lenient_constructor
          Executor.sample_client "T1" 10).1
       = [args]
       /\ Executor.lenient_constructor args = true.
Proof.
  split.
  - apply (proj2 (proj2 (order_id_means_order_placed Executor.sample_float
                           Executor.strict_constructor
                           Executor.sample_client "T1" 10))).
    reflexivity.
  - destruct (proj1 (order_id_means_order_placed Executor.sample_float
                       Executor.lenient_constructor
                       Executor.sample_client "T1" 10) eq_refl)
      as (args & _ & H & Hacc & _).
    now exists args.
Defined.

(** ** The configuration *)

Section ConfigFacts.

Import Tracker Config ConfigEnv.

Variable float_of_str : string -> res float.
Variable int_of_str : string -> res Z.

(** X27.  [from_env] returns a configuration only when PRIVATE_KEY and
    TARGET_ADDRESS are set and not empty, and raises ValueError
    otherwise, whatever the other variables hold; in the configuration
    it returns, the two keys are the values of the environment, the
    amount and the interval are those of TRADE_AMOUNT and POLL_INTERVAL
    (of ["10"] when unset), and the chain id and the two endpoints are
    the built-in ones, which no variable changes. *)
Theorem from_env_needs_both_keys env :
  (forall c,
      from_env float_of_str int_of_str env = Ret c ->
      env !! "PRIVATE_KEY" = Some (private_key c) /\ private_key c <> ""
      /\ env !! "TARGET_ADDRESS" = Some (target_address c)
      /\ target_address c <> ""
      /\ float_of_str (default "10" (env !! "TRADE_AMOUNT"))
         = Ret (trade_amount c)
      /\ int_of_str (default "10" (env !! "POLL_INTERVAL"))
         = Ret (poll_interval c)
      /\ db_path c = default "polybot.db" (env !! "DB_PATH")
      /\ chain_id c = 137%Z
      /\ clob_url c = "https://clob.polymarket.com"
      /\ data_api_url c = "https://data-api.polymarket.com")
  /\ (env !! "PRIVATE_KEY" = None \/ env !! "PRIVATE_KEY" = Some ""
      \/ env !! "TARGET_ADDRESS" = None \/ env !! "TARGET_ADDRESS" = Some ""
      -> from_env float_of_str int_of_str env = Raise ValueError).
Proof.
  unfold from_env. split.
  - intros c.
    destruct (env !! "PRIVATE_KEY") as [pk |]; [| discriminate].
    destruct (String.eqb pk "") eqn:Hpk; [discriminate |].
    destruct (env !! "TARGET_ADDRESS") as [addr |]; [| discriminate].
    destruct (String.eqb addr "") eqn:Haddr; [discriminate |].
    destruct (float_of_str _) as [amount |]; [| discriminate].
    destruct (int_of_str _) as [interval |]; [| discriminate].
    cbn. intros [= <-]. cbn.
    apply String.eqb_neq in Hpk, Haddr. repeat split; done.
  - intros H.
    destruct (env !! "PRIVATE_KEY") as [pk |]; [| reflexivity].
    destruct (String.eqb pk "") eqn:Hpk; [reflexivity |].
    apply String.eqb_neq in Hpk.
    destruct H as [H | [H | H]]; [discriminate | congruence |].
    destruct (env !! "TARGET_ADDRESS") as [addr |]; [| reflexivity].
    destruct (String.eqb addr "") eqn:Haddr; [reflexivity |].
    apply String.eqb_neq in Haddr.
    destruct H as [H | H]; [discriminate | congruence].
Qed.

End ConfigFacts.

Lemma from_env_needs_both_keys_witness :
  ConfigEnv.from_env (fun _ => Tracker.Ret 10%float)
    (fun _ => Tracker.Ret 10%Z)
    (<["PRIVATE_KEY" := "0xkey"]> (<["TARGET_ADDRESS" := ""]> ∅))
  = Tracker.Raise Tracker.ValueError.
Proof.
  apply (proj2 (from_env_needs_both_keys (fun _ => Tracker.Ret 10%float)
                  (fun _ => Tracker.Ret 10%Z) _)).
  right. right. right. reflexivity.
Defined.
